(** * RowtConsole: the authenticated-session coordinator

    A shallow embedding of [src/RowtConsole.ts]: the token store
    ([localStorage]), the axios request and response interceptors installed
    by the constructor, the refresh subscriber list with [isRefreshing], and
    the API Surface methods whose argument checks and payload defaults are
    specified.

    JavaScript runs one job at a time.  A job is the delivery of one network
    answer (or one call made by the application) together with the promise
    reactions it triggers; the embedding runs each job to completion as one
    function on [State].  Requests handed to the transport are kept in
    [inflight] until the environment answers them. *)

From stdpp Require Import base strings gmap list.

Set Default Proof Using "Type".
Open Scope string_scope.
Open Scope list_scope.

(** ** Values that travel *)

Inductive Method := GET | POST.

(** [response.data]: the two fields [refreshToken] destructures, and the rest
    of the body kept as text.  A body that is no object at all (JSON null,
    on which the destructuring itself throws) is not told apart from an
    object without the two fields: the properties below name the error
    [refreshToken] throws only where the answer is not a 2xx response. *)
Record Data := mkData {
  access_token : option string;
  refresh_token : option string;
  content : string;
}.

Record Response := mkResponse {
  status : nat;
  data : Data;
}.

(** What can be thrown or used to reject a promise: an axios error, whose
    [response] is undefined when the transport gave no answer, or a plain
    [new Error(message)]. *)
Inductive Err :=
  | AxiosError (response : option Response)
  | Error (message : string).

(** JavaScript numbers as far as [||] tells them apart. *)
Inductive number :=
  | NaN
  | Num (z : Z).

Inductive JsDate :=
  | InvalidDate
  | ValidDate (ms : Z).

Definition Filters := list (string * string).

(** The [timezone] sent: the caller's, or the one the host resolves
    ([Intl.DateTimeFormat().resolvedOptions().timeZone]). *)
Inductive TimeZone :=
  | GivenZone (tz : string)
  | HostZone.

(** The payload of /analytics/breakdown.  The two dates are sent as
    [toISOString()] of a valid time value, kept here as that time value. *)
Record BreakdownPayload := mkBreakdownPayload {
  p_projectId : string;
  p_dimension : string;
  p_startDate : Z;
  p_endDate : Z;
  p_timezone : TimeZone;
  p_limit : number;
  p_offset : number;
  p_filters : Filters;
}.

Record AnalyticsBreakdownRequest := mkBreakdownRequest {
  projectId : option string;
  dimension : option string;
  startDate : option JsDate;
  endDate : option JsDate;
  timezone : option string;
  limit : option number;
  offset : option number;
  filters : option Filters;
}.

(** Request bodies of the modelled calls. *)
Inductive Payload :=
  | NoBody
  | Json (text : string)
  | RefreshBody (refresh_token : string)
  | LogoutBody (access_token refresh_token : option string)
  | LinksByProjectIdBody (projectId : string) (includeInteractions : bool)
  | ProjectIdBody (projectId : string)
  | UserIdBody (userId : option string)
  | BreakdownBody (p : BreakdownPayload).

(** The axios request config: [config.headers.Authorization] and the custom
    [config._retry] mark are the fields the interceptors touch. *)
Record Config := mkConfig {
  method : Method;
  url : string;
  body : Payload;
  Authorization : option string;
  _retry : bool;
}.

Definition with_Authorization (h : option string) (c : Config) : Config :=
  mkConfig (method c) (url c) (body c) h (_retry c).

Definition with_retry (b : bool) (c : Config) : Config :=
  mkConfig (method c) (url c) (body c) (Authorization c) b.

(** Who awaits the promise of a request: an API Surface method called by the
    application (identified by the number the application gave the call), the
    [refreshToken()] started by the response interceptor together with its
    then/catch/finally chain, the [refreshToken()] inside
    [manualRefreshToken], or the [try] block of [logout]. *)
Inductive Awaiter :=
  | Caller (id : nat)
  | AutoRefresh
  | ManualRefresh (id : nat)
  | LogoutCall (id : nat).

Inductive Value :=
  | Resp (r : Response)
  | Flag (b : bool)
  | Str (s : string).

Inductive Outcome :=
  | Resolved (v : Value)
  | Rejected (e : Err).

Record Request := mkRequest {
  config : Config;
  awaiter : Awaiter;
}.

(** A Pending Caller: the two closures pushed by [subscribeTokenRefresh]
    share the captured [config] and the [resolve]/[reject] of the promise the
    interceptor returned, which is the promise [sub_awaiter] waits for. *)
Record RefreshSubscriber := mkSubscriber {
  sub_config : Config;
  sub_awaiter : Awaiter;
}.

(** Observable effects, in the order they happen.  [Notified] records the
    invocation of a subscriber's [onSuccess] (right, with the token) or
    [onError] (left, with the error). *)
Inductive Effect :=
  | Sent (rq : Request)
  | Notified (sub : RefreshSubscriber) (n : Err + string)
  | Settled (id : nat) (o : Outcome).

#[global] Instance Method_eq_dec : EqDecision Method.
Proof. solve_decision. Defined.
#[global] Instance Data_eq_dec : EqDecision Data.
Proof. solve_decision. Defined.
#[global] Instance Response_eq_dec : EqDecision Response.
Proof. solve_decision. Defined.
#[global] Instance Err_eq_dec : EqDecision Err.
Proof. solve_decision. Defined.
#[global] Instance Awaiter_eq_dec : EqDecision Awaiter.
Proof. solve_decision. Defined.

(** ** The state of one [RowtConsole] instance and its surroundings *)

Record State := mkState {
  localStorage : gmap string string;
  isRefreshing : bool;
  refreshSubscribers : list RefreshSubscriber;
  inflight : list Request;
  trace : list Effect;
}.

Definition with_localStorage (m : gmap string string) (st : State) : State :=
  mkState m (isRefreshing st) (refreshSubscribers st) (inflight st) (trace st).

Definition with_isRefreshing (b : bool) (st : State) : State :=
  mkState (localStorage st) b (refreshSubscribers st) (inflight st) (trace st).

Definition with_refreshSubscribers (l : list RefreshSubscriber) (st : State) : State :=
  mkState (localStorage st) (isRefreshing st) l (inflight st) (trace st).

Definition with_inflight (l : list Request) (st : State) : State :=
  mkState (localStorage st) (isRefreshing st) (refreshSubscribers st) l (trace st).

Definition emit (e : Effect) (st : State) : State :=
  mkState (localStorage st) (isRefreshing st) (refreshSubscribers st)
          (inflight st) (trace st ++ [e]).

(** ** Token Store *)

Definition getItem (key : string) (st : State) : option string :=
  localStorage st !! key.

Definition setItem (key value : string) (st : State) : State :=
  with_localStorage (<[key := value]> (localStorage st)) st.

Definition removeItem (key : string) (st : State) : State :=
  with_localStorage (delete key (localStorage st)) st.

(** [if (token)] on the result of [getItem]: [null] and the empty string are
    falsy. *)
Definition truthy (v : option string) : option string :=
  match v with
  | Some s => if decide (s = EmptyString) then None else Some s
  | None => None
  end.

Definition clearTokens (st : State) : State :=
  removeItem "refresh_token" (removeItem "access_token" st).

(** ** Request Signer *)

Definition requestInterceptor (config : Config) (st : State) : Config * State :=
  match truthy (getItem "access_token" st) with
  | Some token => (with_Authorization (Some ("Bearer " +:+ token)) config, st)
  | None => (config, st)
  end.

(** [this.client(config)]: the request interceptor signs the config and the
    request goes to the transport. *)
Definition request (config : Config) (k : Awaiter) (st : State) : State :=
  let '(config', st1) := requestInterceptor config st in
  let rq := mkRequest config' k in
  emit (Sent rq) (with_inflight (inflight st1 ++ [rq]) st1).

(** ** Refresh Coordinator *)

Definition subscribeTokenRefresh (sub : RefreshSubscriber) (st : State) : State :=
  with_refreshSubscribers (refreshSubscribers st ++ [sub]) st.

(** [onSuccess(token)]: overwrite the header, re-issue the request; the
    pending promise follows the new request. *)
Definition onSuccess (sub : RefreshSubscriber) (token : string) (st : State) : State :=
  request (with_Authorization (Some ("Bearer " +:+ token)) (sub_config sub))
          (sub_awaiter sub)
          (emit (Notified sub (inr token)) st).

(** [onError(error)]: [reject(error)].  The rejection is recorded here; the
    awaiter of the rejected promise runs afterwards (see [refreshChain]). *)
Definition onError (sub : RefreshSubscriber) (error : Err) (st : State) : State :=
  emit (Notified sub (inl error)) st.

Definition onRefreshed (newToken : string) (st : State) : State :=
  with_refreshSubscribers []
    (foldl (fun s sub => onSuccess sub newToken s) st (refreshSubscribers st)).

Definition onRefreshFailed (error : Err) (st : State) : State :=
  with_refreshSubscribers []
    (foldl (fun s sub => onError sub error s) st (refreshSubscribers st)).

Definition refreshConfig (refreshToken : string) : Config :=
  mkConfig POST "/auth/refresh" (RefreshBody refreshToken) None false.

(** [refreshToken()] up to its [await]: it throws when no refresh token is
    stored, and posts to /auth/refresh otherwise. *)
Definition refreshToken_begin (k : Awaiter) (st : State) : option Err * State :=
  match truthy (getItem "refresh_token" st) with
  | None => (Some (Error "No refresh token available"), st)
  | Some refreshToken => (None, request (refreshConfig refreshToken) k st)
  end.

(** [refreshToken()] from its [await] on: the result is the thrown error or
    the returned access token. *)
Definition refreshToken_resume (o : Outcome) (st : State) : (Err + string) * State :=
  match o with
  | Rejected e => (inl e, st)
  | Resolved (Resp r) =>
      match truthy (access_token (data r)), truthy (refresh_token (data r)) with
      | Some a, Some r' =>
          (inr a, setItem "refresh_token" r' (setItem "access_token" a st))
      | _, _ => (inl (Error "Invalid token response"), st)
      end
  | Resolved _ => (inl (Error "Invalid token response"), st)
  end.

(** The promise reactions.  [wake] is what the awaiter of a rejected Pending
    Caller does; it runs as a later promise job, after [onRefreshFailed] has
    emptied the list and the [finally] handler has reset the flag. *)
Section Reactions.
Variable wake : Awaiter -> Outcome -> State -> State.

(** The chain attached to [this.refreshToken()] in the response
    interceptor: [.then(onRefreshed)], [.catch(clearTokens; onRefreshFailed)],
    [.finally(isRefreshing = false)]. *)
Definition refreshChain (p : Err + string) (st : State) : State :=
  match p with
  | inr newToken => with_isRefreshing false (onRefreshed newToken st)
  | inl err =>
      let rejected := refreshSubscribers st in
      let st1 := onRefreshFailed err (clearTokens st) in
      let st2 := with_isRefreshing false st1 in
      foldl (fun s sub => wake (sub_awaiter sub) (Rejected err) s) st2 rejected
  end.

(** What the awaiter of a settled request promise does next. *)
Definition resume (k : Awaiter) (o : Outcome) (st : State) : State :=
  match k with
  | Caller id => emit (Settled id o) st
  | AutoRefresh =>
      let '(p, st1) := refreshToken_resume o st in
      refreshChain p st1
  | ManualRefresh id =>
      match refreshToken_resume o st with
      | (inr _, st1) => emit (Settled id (Resolved (Flag true))) st1
      | (inl _, st1) => emit (Settled id (Resolved (Flag false))) (clearTokens st1)
      end
  | LogoutCall id =>
      emit (Settled id (Resolved (Str "Logout successful"))) (clearTokens st)
  end.
End Reactions.

(** A woken awaiter finds the subscriber list already emptied, so a chain it
    runs wakes nobody: two levels unfold the recursion between [resume] and
    [refreshChain]. *)
Definition wake : Awaiter -> Outcome -> State -> State :=
  resume (fun _ _ st => st).

Definition settle : Awaiter -> Outcome -> State -> State := resume wake.

(** ** Response Gatekeeper *)

Definition unauthenticated (error : Err) : bool :=
  match error with
  | AxiosError (Some r) => Nat.eqb (status r) 401
  | _ => false
  end.

(** The rejection handler of the response interceptor. *)
Definition responseError (rq : Request) (error : Err) (st : State) : State :=
  if unauthenticated error && negb (_retry (config rq)) then
    let config' := with_retry true (config rq) in
    let '(thrown, st1) :=
      if isRefreshing st then (None, st)
      else refreshToken_begin AutoRefresh (with_isRefreshing true st) in
    let st2 := subscribeTokenRefresh (mkSubscriber config' (awaiter rq)) st1 in
    match thrown with
    | Some err => refreshChain wake (inl err) st2
    | None => st2
    end
  else settle (awaiter rq) (Rejected error) st.

(** axios' default [validateStatus]. *)
Definition validateStatus (s : nat) : bool := ((200 <=? s) && (s <? 300))%nat.

(** The transport answers a request ([None]: no answer at all); the response
    interceptor passes a response through and handles an error. *)
Definition responseInterceptor (rq : Request) (answer : option Response) (st : State) : State :=
  match answer with
  | Some r =>
      if validateStatus (status r)
      then settle (awaiter rq) (Resolved (Resp r)) st
      else responseError rq (AxiosError (Some r)) st
  | None => responseError rq (AxiosError None) st
  end.

(** ** API Surface *)

Definition post (url : string) (b : Payload) : Config := mkConfig POST url b None false.

Definition manualRefreshToken (id : nat) (st : State) : State :=
  match refreshToken_begin (ManualRefresh id) st with
  | (Some _, st1) => emit (Settled id (Resolved (Flag false))) (clearTokens st1)
  | (None, st1) => st1
  end.

Definition logout (id : nat) (st : State) : State :=
  request (post "/auth/logout"
             (LogoutBody (getItem "access_token" st) (getItem "refresh_token" st)))
          (LogoutCall id) st.

Definition getLinksByProjectId (id : nat) (projectId : option string)
    (includeInteractions : bool) (st : State) : State :=
  match truthy projectId with
  | None => emit (Settled id (Rejected (Error "Missing projectId"))) st
  | Some p =>
      request (post "/link/byProjectId" (LinksByProjectIdBody p includeInteractions))
              (Caller id) st
  end.

Definition regenerateApiKey (id : nat) (projectId : option string) (st : State) : State :=
  match truthy projectId with
  | None => emit (Settled id (Rejected (Error "Missing projectId"))) st
  | Some p => request (post "/projects/generateApiKey" (ProjectIdBody p)) (Caller id) st
  end.

Definition getUserUsage (id : nat) (userId : option string) (st : State) : State :=
  request (post "/users/usage" (UserIdBody userId)) (Caller id) st.

Definition getUserTier (id : nat) (userId : option string) (st : State) : State :=
  request (post "/users/tier" (UserIdBody userId)) (Caller id) st.

(** [v || d] on an optional number: undefined, 0 and NaN give [d]. *)
Definition or_number (v : option number) (d : number) : number :=
  match v with
  | Some (Num z) => if decide (z = 0%Z) then d else Num z
  | _ => d
  end.

Definition toISOString (d : JsDate) : Err + Z :=
  match d with
  | ValidDate ms => inr ms
  | InvalidDate => inl (Error "Invalid time value")
  end.

(** The checks and the payload of [getAnalyticsBreakdown]: the error thrown,
    or the payload posted. *)
Definition breakdownPayload (request : AnalyticsBreakdownRequest) : Err + BreakdownPayload :=
  match truthy (projectId request) with
  | None => inl (Error "Missing projectId")
  | Some pid =>
  match truthy (dimension request) with
  | None => inl (Error "Missing dimension")
  | Some dim =>
  match startDate request, endDate request with
  | Some sd, Some ed =>
      match toISOString sd with
      | inl e => inl e
      | inr s =>
      match toISOString ed with
      | inl e => inl e
      | inr e =>
          inr (mkBreakdownPayload pid dim s e
                 (match truthy (timezone request) with
                  | Some tz => GivenZone tz
                  | None => HostZone
                  end)
                 (or_number (limit request) (Num 50))
                 (or_number (offset request) (Num 0))
                 (match filters request with Some f => f | None => [] end))
      end
      end
  | _, _ => inl (Error "Missing startDate or endDate")
  end
  end
  end.

Definition getAnalyticsBreakdown (id : nat) (req : AnalyticsBreakdownRequest)
    (st : State) : State :=
  match breakdownPayload req with
  | inl e => emit (Settled id (Rejected e)) st
  | inr p => request (post "/analytics/breakdown" (BreakdownBody p)) (Caller id) st
  end.

(** ** The event loop *)

Inductive Operation :=
  | Plain (m : Method) (url : string) (b : Payload)
  | GetLinksByProjectId (projectId : option string) (includeInteractions : bool)
  | RegenerateApiKey (projectId : option string)
  | GetUserUsage (userId : option string)
  | GetUserTier (userId : option string)
  | GetAnalyticsBreakdown (req : AnalyticsBreakdownRequest)
  | ManualRefreshToken
  | Logout.

(** One job: the application calls a method, or the transport answers the
    [n]-th request in flight. *)
Inductive Event :=
  | Call (id : nat) (op : Operation)
  | Answer (n : nat) (r : option Response).

Definition call (id : nat) (op : Operation) (st : State) : State :=
  match op with
  | Plain m url b => request (mkConfig m url b None false) (Caller id) st
  | GetLinksByProjectId p i => getLinksByProjectId id p i st
  | RegenerateApiKey p => regenerateApiKey id p st
  | GetUserUsage u => getUserUsage id u st
  | GetUserTier u => getUserTier id u st
  | GetAnalyticsBreakdown req => getAnalyticsBreakdown id req st
  | ManualRefreshToken => manualRefreshToken id st
  | Logout => logout id st
  end.

Definition step (st : State) (ev : Event) : State :=
  match ev with
  | Call id op => call id op st
  | Answer n r =>
      match inflight st !! n with
      | Some rq => responseInterceptor rq r (with_inflight (delete n (inflight st)) st)
      | None => st
      end
  end.

Definition run (evs : list Event) (st : State) : State := foldl step st evs.

Definition initial (storage : gmap string string) : State :=
  mkState storage false [] [] [].

(** Refresh exchanges handed to the transport so far. *)
Definition is_refresh_exchange (e : Effect) : bool :=
  match e with
  | Sent rq => bool_decide (url (config rq) = "/auth/refresh")
  | _ => false
  end.

Definition refreshExchanges (st : State) : nat :=
  length (List.filter is_refresh_exchange (trace st)).

Definition notifications (t : list Effect) : list (RefreshSubscriber * (Err + string)) :=
  omap (fun e => match e with Notified sub n => Some (sub, n) | _ => None end) t.

Definition settlements (t : list Effect) : list (nat * Outcome) :=
  omap (fun e => match e with Settled id o => Some (id, o) | _ => None end) t.

(** What axios makes of a transport answer before the interceptors see it. *)
Definition outcome_of (answer : option Response) : Outcome :=
  match answer with
  | Some r =>
      if validateStatus (status r) then Resolved (Resp r)
      else Rejected (AxiosError (Some r))
  | None => Rejected (AxiosError None)
  end.

Definition is401 (answer : option Response) : bool :=
  match answer with
  | Some r => Nat.eqb (status r) 401
  | None => false
  end.

(** ** Vocabulary of the properties *)

Definition falsy_number (v : option number) : Prop :=
  v = None \/ v = Some (Num 0).

Definition passes_validation (req : AnalyticsBreakdownRequest) : Prop :=
  is_Some (truthy (projectId req)) /\ is_Some (truthy (dimension req)) /\
  is_Some (startDate req) /\ is_Some (endDate req).

(** An operation fails fast when its promise is rejected and nothing else
    happens: nothing is sent and the state is untouched. *)
Definition fails_fast (id : nat) (st st' : State) : Prop :=
  exists e : Err, st' = emit (Settled id (Rejected e)) st.

Definition tokens_cleared (st : State) : Prop :=
  getItem "access_token" st = None /\ getItem "refresh_token" st = None.

(** What a woken awaiter reports to the application. *)
Definition woken (k : Awaiter) (err : Err) : list (nat * Outcome) :=
  match k with
  | Caller id => [(id, Rejected err)]
  | AutoRefresh => []
  | ManualRefresh id => [(id, Resolved (Flag false))]
  | LogoutCall id => [(id, Resolved (Str "Logout successful"))]
  end.

(** The retry issued by [onSuccess]. *)
Definition retryOf (token : string) (st : State) (sub : RefreshSubscriber) : Request :=
  mkRequest
    (fst (requestInterceptor
            (with_Authorization (Some ("Bearer " +:+ token)) (sub_config sub)) st))
    (sub_awaiter sub).

(** The requests of the concurrent calls and the Pending Callers they become. *)
Definition callRequest (x : Config * nat) : Request := mkRequest x.1 (Caller x.2).

Definition parked (x : Config * nat) : RefreshSubscriber :=
  mkSubscriber (with_retry true x.1) (Caller x.2).

(** An order in which [k] queued requests can be answered: each index picks
    one of those still waiting. *)
Fixpoint draining (k : nat) (ns : list nat) : bool :=
  match ns with
  | [] => Nat.eqb k 0
  | n :: ns' => (n <? k)%nat && draining (pred k) ns'
  end.

Definition denyAt (n : nat) (r : Response) : Event := Answer n (Some r).

Definition refreshing (k : Awaiter) : bool :=
  match k with
  | AutoRefresh => true
  | _ => false
  end.

(** Requests of the automatic refresh that are in flight, and those parked in
    the subscriber list. *)
Definition outstanding (st : State) : nat :=
  length (List.filter (fun rq => refreshing (awaiter rq)) (inflight st)).

Definition parkedRefreshes (st : State) : nat :=
  length (List.filter (fun sub => refreshing (sub_awaiter sub)) (refreshSubscribers st)).

Definition single_refresh (st : State) : Prop :=
  outstanding st + parkedRefreshes st <= (if isRefreshing st then 1 else 0).

(** ** Sample sessions *)

Definition stored_pair : gmap string string :=
  <["refresh_token" := "rt1"]> (<["access_token" := "at1"]> ∅).

Definition unauthorized : Response := mkResponse 401 (mkData None None "Unauthorized").

Definition fresh_pair : Response :=
  mkResponse 200 (mkData (Some "at2") (Some "rt2") EmptyString).

Definition getProfile : Operation := Plain GET "/auth/profile" NoBody.

(** The config of [getProfile] as the request interceptor sends it with
    [stored_pair] in the store. *)
Definition signed_profile : Config :=
  mkConfig GET "/auth/profile" NoBody (Some "Bearer at1") false.

Definition two_calls (storage : gmap string string) : State :=
  run [Call 1 getProfile; Call 2 getProfile] (initial storage).

Definition limit_zero_request : AnalyticsBreakdownRequest :=
  mkBreakdownRequest (Some "proj") (Some "country")
    (Some (ValidDate 0)) (Some (ValidDate 86400000))
    None (Some (Num 0)) None None.

Ltac st_simpl :=
  cbn [localStorage isRefreshing refreshSubscribers inflight trace
       with_localStorage with_isRefreshing with_refreshSubscribers with_inflight
       emit subscribeTokenRefresh setItem removeItem clearTokens
       config awaiter sub_config sub_awaiter fst snd].

(** ** The rest of the API Surface and further vocabulary *)

Definition list_guarded (st : State) : Prop :=
  isRefreshing st = false -> refreshSubscribers st = [].

(** The refresh request sits in the subscriber list, none is in flight, and
    the flag is up. *)
Definition hung (st : State) : Prop :=
  isRefreshing st = true /\ outstanding st = 0 /\ 0 < parkedRefreshes st.

(** The application's number of the call an awaiter belongs to. *)
Definition idOf (k : Awaiter) : list nat :=
  match k with
  | Caller id => [id]
  | AutoRefresh => []
  | ManualRefresh id => [id]
  | LogoutCall id => [id]
  end.

(** Calls whose request is in flight or parked in the subscriber list. *)
Definition pendingIds (st : State) : list nat :=
  flat_map (fun rq => idOf (awaiter rq)) (inflight st) ++
  flat_map (fun sub => idOf (sub_awaiter sub)) (refreshSubscribers st).

(** Calls that have settled, once per settlement. *)
Definition settledIds (st : State) : list nat := map fst (settlements (trace st)).

Definition ledger (st : State) : list nat := pendingIds st ++ settledIds st.

Definition callIds (evs : list Event) : list nat :=
  omap (fun ev => match ev with Call id _ => Some id | Answer _ _ => None end) evs.

Record RowtTokens := mkTokens {
  t_access_token : string;
  t_refresh_token : string;
}.

(** [response.data] of /auth/login as its type gives it; the user is kept as
    text. *)
Record RowtLoginResponseDTO := mkLoginResponse {
  tokens : RowtTokens;
  user : string;
}.

Definition storeTokens (tokens : RowtTokens) (st : State) : State :=
  setItem "refresh_token" (t_refresh_token tokens)
    (setItem "access_token" (t_access_token tokens) st).

(** [login] up to its [await], the credentials being the JSON text posted. *)
Definition login (id : nat) (credentials : string) (st : State) : State :=
  request (post "/auth/login" (Json credentials)) (Caller id) st.

(** [login] from its [await] on: a rejection is rethrown, a response has its
    tokens stored and its user returned. *)
Definition login_resume (awaited : Err + RowtLoginResponseDTO) (st : State)
    : (Err + string) * State :=
  match awaited with
  | inl e => (inl e, st)
  | inr d => (inr (user d), storeTokens (tokens d) st)
  end.

(** [validateTokens] from the settlement of [getProfile()] on. *)
Definition validateTokens_resume (o : Outcome) : bool :=
  match o with
  | Resolved _ => true
  | Rejected _ => false
  end.

(** The retry of a parked call once the token [a] has been obtained. *)
Definition retryWith (a : string) (x : Config * nat) : Request :=
  mkRequest (mkConfig (method x.1) (url x.1) (body x.1) (Some ("Bearer " +:+ a)) true)
            (Caller x.2).

(** The token pair a refresh answer delivers, if it does. *)
Definition accepted (answer : option Response) : option (string * string) :=
  match answer with
  | Some r =>
      if validateStatus (status r) then
        match truthy (access_token (data r)), truthy (refresh_token (data r)) with
        | Some a, Some r' => Some (a, r')
        | _, _ => None
        end
      else None
  | None => None
  end.

Definition missing_token : Err := Error "No refresh token available".

(** The answer is a response with a 2xx status. *)
Definition is2xx (answer : option Response) : bool :=
  match answer with
  | Some r => validateStatus (status r)
  | None => false
  end.

(** A property of an object literal: absent, or present with a value that may
    be [undefined]. *)
Inductive Optional (A : Type) :=
  | Absent
  | Present (v : option A).
Arguments Absent {A}.
Arguments Present {A} v.

Record RowtGetProjectOptions := mkOptions {
  includeLinks : Optional bool;
  includeInteractions : Optional bool;
  o_startDate : Optional JsDate;
  o_endDate : Optional JsDate;
  getPreviousPeriod : Optional bool;
}.

(** [{ ...defaults, ...given }], property by property. *)
Definition spread {A} (default given : Optional A) : Optional A :=
  match given with
  | Absent => default
  | Present v => Present v
  end.

(** [defaultOptions], the two readings of the clock being [now1] (by
    [Date.now()]) and [now2] (by [new Date()]). *)
Definition defaultOptions (now1 now2 : Z) : RowtGetProjectOptions :=
  mkOptions (Present (Some false)) (Present (Some false))
    (Present (Some (ValidDate (now1 - 7 * 24 * 60 * 60 * 1000))))
    (Present (Some (ValidDate now2)))
    Absent.

Definition mergedOptions (defaults : RowtGetProjectOptions)
    (options : option RowtGetProjectOptions) : RowtGetProjectOptions :=
  match options with
  | None => defaults
  | Some o =>
      mkOptions (spread (includeLinks defaults) (includeLinks o))
        (spread (includeInteractions defaults) (includeInteractions o))
        (spread (o_startDate defaults) (o_startDate o))
        (spread (o_endDate defaults) (o_endDate o))
        (spread (getPreviousPeriod defaults) (getPreviousPeriod o))
  end.

(** [getProjectById]; [stringify] is the JSON text of the payload
    [{ id, options }]. *)
Definition getProjectById (stringify : string -> RowtGetProjectOptions -> string)
    (now1 now2 : Z) (id : nat) (projectId : option string)
    (options : option RowtGetProjectOptions) (st : State) : State :=
  match truthy projectId with
  | None => emit (Settled id (Rejected (Error "Missing projectId"))) st
  | Some p =>
      request
        (post "/projects/getById"
           (Json (stringify p (mergedOptions (defaultOptions now1 now2) options))))
        (Caller id) st
  end.

(** The value of an analytics filter, and what [toString()] or
    [toISOString()] renders into the query. *)
Inductive FilterValue :=
  | FUndefined
  | FNull
  | FText (s : string)
  | FNumber (n : number).

Inductive ParamValue :=
  | PText (s : string)
  | PNumber (n : number)
  | PDate (ms : Z).

(** The [forEach] over [Object.entries(filters)]: [params.append] for every
    value that is neither undefined nor null. *)
Definition appendFilter (params : list (string * ParamValue))
    (entry : string * FilterValue) : list (string * ParamValue) :=
  match entry.2 with
  | FUndefined => params
  | FNull => params
  | FText s => params ++ [(entry.1, PText s)]
  | FNumber n => params ++ [(entry.1, PNumber n)]
  end.

Definition analyticsParams (projectId : option string) (startDate endDate : JsDate)
    (filters : option (list (string * FilterValue)))
    : Err + list (string * ParamValue) :=
  match truthy projectId with
  | None => inl (Error "Missing projectId")
  | Some p =>
      match toISOString startDate with
      | inl e => inl e
      | inr s =>
      match toISOString endDate with
      | inl e => inl e
      | inr e =>
          let params := [("projectId", PText p); ("startDate", PDate s); ("endDate", PDate e)] in
          inr (match filters with
               | Some entries => foldl appendFilter params entries
               | None => params
               end)
      end
      end
  end.

(** [getAnalytics]; [toString] is [params.toString()]. *)
Definition getAnalytics (toString : list (string * ParamValue) -> string)
    (id : nat) (projectId : option string) (startDate endDate : JsDate)
    (filters : option (list (string * FilterValue))) (st : State) : State :=
  match analyticsParams projectId startDate endDate filters with
  | inl e => emit (Settled id (Rejected e)) st
  | inr params =>
      request (mkConfig GET ("/analytics?" +:+ toString params) NoBody None false)
              (Caller id) st
  end.

Record ObservabilityEventsRequest := mkObservabilityRequest {
  ob_projectId : option string;
  ob_startDate : option JsDate;
  ob_endDate : option JsDate;
  ob_eventTypes : option (list string);
  ob_search : option string;
  ob_linkId : option string;
  ob_limit : option number;
  ob_offset : option number;
  ob_sortDirection : option string;
}.

Record ObservabilityPayload := mkObservabilityPayload {
  op_projectId : option string;
  op_startDate : option Z;
  op_endDate : option Z;
  op_eventTypes : option (list string);
  op_search : option string;
  op_linkId : option string;
  op_limit : number;
  op_offset : number;
  op_sortDirection : string;
}.

(** [request?.field?.toISOString()]. *)
Definition isoOf (d : option JsDate) : Err + option Z :=
  match d with
  | None => inr None
  | Some d' =>
      match toISOString d' with
      | inl e => inl e
      | inr ms => inr (Some ms)
      end
  end.

Definition observabilityPayload (req : option ObservabilityEventsRequest)
    : Err + ObservabilityPayload :=
  match isoOf (req ≫= ob_startDate) with
  | inl e => inl e
  | inr s =>
  match isoOf (req ≫= ob_endDate) with
  | inl e => inl e
  | inr e =>
      inr (mkObservabilityPayload (req ≫= ob_projectId) s e
             (req ≫= ob_eventTypes) (req ≫= ob_search) (req ≫= ob_linkId)
             (or_number (req ≫= ob_limit) (Num 50))
             (or_number (req ≫= ob_offset) (Num 0))
             (match truthy (req ≫= ob_sortDirection) with
              | Some d => d
              | None => "DESC"
              end))
  end
  end.

(** [getObservabilityEvents]; [stringify] is the JSON text of the payload. *)
Definition getObservabilityEvents (stringify : ObservabilityPayload -> string)
    (id : nat) (req : option ObservabilityEventsRequest) (st : State) : State :=
  match observabilityPayload req with
  | inl e => emit (Settled id (Rejected e)) st
  | inr p => request (post "/observability/events" (Json (stringify p))) (Caller id) st
  end.

Definition defined (v : FilterValue) : option ParamValue :=
  match v with
  | FUndefined => None
  | FNull => None
  | FText s => Some (PText s)
  | FNumber n => Some (PNumber n)
  end.

Definition refresh_accounted (st : State) : Prop :=
  outstanding st + parkedRefreshes st = (if isRefreshing st then 1 else 0).

(** * Properties *)

(** ** Request Signer *)

Lemma request_unfold (c : Config) (k : Awaiter) (st : State) :
  request c k st =
  let rq := mkRequest (fst (requestInterceptor c st)) k in
  emit (Sent rq) (with_inflight (inflight st ++ [rq]) st).
Proof.
  unfold request, requestInterceptor. destruct (truthy _); reflexivity.
Qed.

Lemma truthy_Some (v : option string) (s : string) :
  truthy v = Some s <-> v = Some s /\ s <> EmptyString.
Proof.
  unfold truthy. destruct v as [x|].
  - destruct (decide (x = EmptyString)) as [E|E]; split.
    + discriminate.
    + intros [[= ->] H]. contradiction.
    + intros [= ->]. auto.
    + intros [[= ->] _]. reflexivity.
  - split; [discriminate | intros [[=] _]].
Qed.



(** ** Response Gatekeeper: pass-through *)

Lemma validateStatus_401 (s : nat) : Nat.eqb s 401 = true -> validateStatus s = false.
Proof. intros ->%Nat.eqb_eq. reflexivity. Qed.

Lemma responseInterceptor_passthrough (rq : Request) (answer : option Response) (st : State) :
  is401 answer && negb (_retry (config rq)) = false ->
  responseInterceptor rq answer st = settle (awaiter rq) (outcome_of answer) st.
Proof.
  intros H. unfold responseInterceptor, outcome_of, responseError.
  destruct answer as [r|]; cbn in *.
  - destruct (validateStatus (status r)); [reflexivity|].
    rewrite H. reflexivity.
  - reflexivity.
Qed.

(** C5: a call that completes with a success, or with any error other than
    a 401 response, hands exactly that result to its caller; the flag, the
    subscriber list, the store and the requests in flight are untouched and
    nothing is sent. *)
Theorem non_401_passes_through (rq : Request) (id : nat) (answer : option Response)
    (st : State) :
  awaiter rq = Caller id ->
  is401 answer = false ->
  let st' := responseInterceptor rq answer st in
  st' = emit (Settled id (outcome_of answer)) st /\
  trace st' = trace st ++ [Settled id (outcome_of answer)] /\
  isRefreshing st' = isRefreshing st /\
  refreshSubscribers st' = refreshSubscribers st /\
  inflight st' = inflight st /\
  localStorage st' = localStorage st /\
  refreshExchanges st' = refreshExchanges st.
Proof.
  intros Hk H401 st'.
  assert (st' = emit (Settled id (outcome_of answer)) st) as ->.
  { subst st'. rewrite responseInterceptor_passthrough by (rewrite H401; reflexivity).
    rewrite Hk. reflexivity. }
  repeat split.
  unfold refreshExchanges. cbn. rewrite List.filter_app, length_app. cbn. lia.
Qed.

Lemma non_401_passes_through_witness :
  responseInterceptor (mkRequest signed_profile (Caller 1))
    (Some (mkResponse 500 (mkData None None "Internal Server Error")))
    (initial stored_pair) =
  emit (Settled 1 (Rejected (AxiosError
          (Some (mkResponse 500 (mkData None None "Internal Server Error"))))))
       (initial stored_pair).
Proof.
  exact (proj1 (non_401_passes_through (mkRequest signed_profile (Caller 1)) 1
                  (Some (mkResponse 500 (mkData None None "Internal Server Error")))
                  (initial stored_pair) eq_refl eq_refl)).
Defined.

(** ** Logout *)

Lemma getItem_clearTokens (key : string) (st : State) :
  getItem key (clearTokens st) =
  if decide (key = "access_token" \/ key = "refresh_token") then None
  else getItem key st.
Proof.
  unfold getItem, clearTokens, removeItem. cbn.
  destruct (decide _) as [[-> | ->] | Hne].
  - rewrite lookup_delete_ne by discriminate. apply lookup_delete_eq.
  - apply lookup_delete_eq.
  - rewrite !lookup_delete_ne by (intros <-; tauto). reflexivity.
Qed.

Lemma refreshChain_failed_alone (w : Awaiter -> Outcome -> State -> State)
    (sub : RefreshSubscriber) (err : Err) (st : State) :
  refreshSubscribers st = [sub] ->
  refreshChain w (inl err) st =
  w (sub_awaiter sub) (Rejected err)
    (with_isRefreshing false
       (with_refreshSubscribers [] (emit (Notified sub (inl err)) (clearTokens st)))).
Proof.
  intros H. unfold refreshChain, onRefreshFailed. cbn. rewrite H. reflexivity.
Qed.

Lemma requestInterceptor_retry (c : Config) (st : State) :
  _retry (fst (requestInterceptor c st)) = _retry c.
Proof. unfold requestInterceptor. destruct (truthy _); reflexivity. Qed.

Lemma requestInterceptor_url (c : Config) (st : State) :
  url (fst (requestInterceptor c st)) = url c.
Proof. unfold requestInterceptor. destruct (truthy _); reflexivity. Qed.



(** ** API Surface: argument checks and payload defaults *)

Lemma breakdownPayload_limit_offset (req : AnalyticsBreakdownRequest) (p : BreakdownPayload) :
  breakdownPayload req = inr p ->
  p_limit p = or_number (limit req) (Num 50) /\
  p_offset p = or_number (offset req) (Num 0).
Proof.
  unfold breakdownPayload.
  destruct (truthy (projectId req)); [|discriminate].
  destruct (truthy (dimension req)); [|discriminate].
  destruct (startDate req) as [sd|]; [|discriminate].
  destruct (endDate req) as [ed|]; [|discriminate].
  destruct (toISOString sd); [discriminate|].
  destruct (toISOString ed); [discriminate|].
  intros [= <-]. split; reflexivity.
Qed.

Lemma or_number_falsy (v : option number) (d : number) :
  falsy_number v -> or_number v d = d.
Proof. intros [-> | ->]; reflexivity. Qed.

Lemma requestInterceptor_body (c : Config) (st : State) :
  body (fst (requestInterceptor c st)) = body c.
Proof. unfold requestInterceptor. destruct (truthy _); reflexivity. Qed.

(** C10: for a request that passes the checks of [getAnalyticsBreakdown],
    whatever the method sends is a post to /analytics/breakdown whose payload
    has limit 50 when [request.limit] is absent or 0, and offset 0 when
    [request.offset] is absent or 0 (a limit of 0 is replaced, not sent); and
    with two valid dates the method does send. *)
Theorem breakdown_defaults (id : nat) (req : AnalyticsBreakdownRequest) (st : State) :
  passes_validation req ->
  (forall rq : Request,
     trace (getAnalyticsBreakdown id req st) = trace st ++ [Sent rq] ->
     exists p : BreakdownPayload,
       url (config rq) = "/analytics/breakdown" /\
       body (config rq) = BreakdownBody p /\
       (falsy_number (limit req) -> p_limit p = Num 50) /\
       (falsy_number (offset req) -> p_offset p = Num 0)) /\
  (forall s e : Z,
     startDate req = Some (ValidDate s) -> endDate req = Some (ValidDate e) ->
     exists rq : Request,
       trace (getAnalyticsBreakdown id req st) = trace st ++ [Sent rq]).
Proof.
  intros (Hp & Hd & Hs & He). split.
  - intros rq Heq. unfold getAnalyticsBreakdown in Heq.
    destruct (breakdownPayload req) as [err|q] eqn:E.
    + cbn in Heq. apply app_inj_tail in Heq as [_ Heq]. discriminate.
    + rewrite request_unfold in Heq. cbn in Heq.
      apply app_inj_tail in Heq as [_ [= <-]].
      exists q. cbn [config].
      rewrite requestInterceptor_url, requestInterceptor_body.
      destruct (breakdownPayload_limit_offset _ _ E) as [-> ->].
      repeat split; intros Hf; apply or_number_falsy; exact Hf.
  - intros s e Hsd Hed.
    destruct Hp as [pid Hp], Hd as [dim Hd].
    unfold getAnalyticsBreakdown, breakdownPayload.
    rewrite Hp, Hd, Hsd, Hed. cbn [toISOString].
    rewrite request_unfold. cbn. eexists. reflexivity.
Qed.

Lemma breakdown_defaults_witness :
  passes_validation limit_zero_request /\
  exists rq : Request,
    trace (getAnalyticsBreakdown 1 limit_zero_request (initial ∅)) =
      trace (initial ∅) ++ [Sent rq].
Proof.
  assert (passes_validation limit_zero_request) as H.
  { repeat split; eexists; reflexivity. }
  split; [exact H|].
  exact (proj2 (breakdown_defaults 1 limit_zero_request (initial ∅) H)
           0%Z 86400000%Z eq_refl eq_refl).
Defined.

Example breakdown_limit_zero :
  breakdownPayload limit_zero_request =
  inr (mkBreakdownPayload "proj" "country" 0 86400000 HostZone (Num 50) (Num 0) []).
Proof. reflexivity. Qed.

Lemma checked_operations_fail_fast (id : nat) (pid : option string) (st : State) :
  truthy pid = None ->
  (forall i : bool, fails_fast id st (getLinksByProjectId id pid i st)) /\
  fails_fast id st (regenerateApiKey id pid st) /\
  (forall req : AnalyticsBreakdownRequest,
     projectId req = pid ->
     fails_fast id st (getAnalyticsBreakdown id req st)).
Proof.
  intros H. unfold fails_fast, getLinksByProjectId, regenerateApiKey,
    getAnalyticsBreakdown, breakdownPayload.
  rewrite H. repeat split; try (eexists; reflexivity).
  intros req ->. rewrite H. eexists; reflexivity.
Qed.

(** C8 (violated by [getUserUsage] and [getUserTier]): called with a missing
    or empty [userId], both methods post to the server; neither fails fast. *)
Theorem user_operations_do_not_validate (id : nat) (userId : option string) (st : State) :
  truthy userId = None ->
  (exists rq : Request,
     getUserUsage id userId st = emit (Sent rq) (with_inflight (inflight st ++ [rq]) st) /\
     url (config rq) = "/users/usage" /\ body (config rq) = UserIdBody userId) /\
  (exists rq : Request,
     getUserTier id userId st = emit (Sent rq) (with_inflight (inflight st ++ [rq]) st) /\
     url (config rq) = "/users/tier" /\ body (config rq) = UserIdBody userId) /\
  ~ fails_fast id st (getUserUsage id userId st) /\
  ~ fails_fast id st (getUserTier id userId st).
Proof.
  intros _. unfold getUserUsage, getUserTier, fails_fast. rewrite !request_unfold. cbn zeta.
  repeat split.
  - eexists. split; [reflexivity|]. cbn [config].
    rewrite requestInterceptor_url, requestInterceptor_body. split; reflexivity.
  - eexists. split; [reflexivity|]. cbn [config].
    rewrite requestInterceptor_url, requestInterceptor_body. split; reflexivity.
  - intros [e He]. apply (f_equal trace) in He. cbn in He.
    apply app_inj_tail in He as [_ He]. discriminate.
  - intros [e He]. apply (f_equal trace) in He. cbn in He.
    apply app_inj_tail in He as [_ He]. discriminate.
Qed.

Lemma user_operations_do_not_validate_witness :
  ~ fails_fast 1 (initial ∅) (getUserUsage 1 (Some EmptyString) (initial ∅)).
Proof.
  exact (proj1 (proj2 (proj2
    (user_operations_do_not_validate 1 (Some EmptyString) (initial ∅) eq_refl)))).
Defined.

(** ** Stepping the event loop *)

Lemma delete_last {A} (l : list A) (x : A) : delete (length l) (l ++ [x]) = l.
Proof. induction l as [|y l IH]; cbn; [reflexivity | f_equal; exact IH]. Qed.

Lemma step_answer_last (st : State) (l : list Request) (rq : Request)
    (answer : option Response) :
  inflight st = l ++ [rq] ->
  step st (Answer (length l) answer) = responseInterceptor rq answer (with_inflight l st).
Proof.
  intros H. unfold step. rewrite H.
  rewrite lookup_app_r, Nat.sub_diag by lia. cbn [lookup list_lookup].
  rewrite delete_last. reflexivity.
Qed.

Lemma step_answer_head (st : State) (l : list Request) (rq : Request)
    (answer : option Response) :
  inflight st = rq :: l ->
  step st (Answer 0 answer) = responseInterceptor rq answer (with_inflight l st).
Proof. intros H. unfold step. rewrite H. reflexivity. Qed.

Lemma responseInterceptor_401 (rq : Request) (r : Response) (st : State) :
  status r = 401 -> _retry (config rq) = false ->
  responseInterceptor rq (Some r) st =
  let sub := mkSubscriber (with_retry true (config rq)) (awaiter rq) in
  if isRefreshing st then subscribeTokenRefresh sub st
  else
    match truthy (getItem "refresh_token" st) with
    | Some rt =>
        subscribeTokenRefresh sub
          (request (refreshConfig rt) AutoRefresh (with_isRefreshing true st))
    | None =>
        refreshChain wake (inl (Error "No refresh token available"))
          (subscribeTokenRefresh sub (with_isRefreshing true st))
    end.
Proof.
  intros Hs Hr. unfold responseInterceptor, responseError. rewrite Hs. cbn [validateStatus].
  cbn [Nat.leb Nat.ltb andb unauthenticated status]. rewrite Hs, Hr.
  cbn [Nat.eqb negb andb].
  destruct (isRefreshing st); [reflexivity|].
  unfold refreshToken_begin.
  change (getItem "refresh_token" (with_isRefreshing true st))
    with (getItem "refresh_token" st).
  destruct (truthy _); reflexivity.
Qed.

Lemma requestInterceptor_storage (c : Config) (st st' : State) :
  localStorage st' = localStorage st ->
  fst (requestInterceptor c st') = fst (requestInterceptor c st).
Proof.
  intros H. unfold requestInterceptor, getItem. rewrite H.
  destruct (truthy _); reflexivity.
Qed.

Lemma refreshExchanges_app (st st' : State) (l : list Effect) :
  trace st' = trace st ++ l ->
  refreshExchanges st' = refreshExchanges st + length (List.filter is_refresh_exchange l).
Proof.
  intros H. unfold refreshExchanges. rewrite H, List.filter_app, length_app. reflexivity.
Qed.

(** C9 (violated when /auth/refresh answers 401): the 401 answer to the
    request sent by [manualRefreshToken] is taken by the response interceptor,
    which sets [isRefreshing], starts an automatic refresh and registers the
    manual refresh's own request as a Pending Caller. *)
Theorem manual_refresh_joins_queue (id : nat) (rt : string) (r : Response) (st : State) :
  isRefreshing st = false ->
  truthy (getItem "refresh_token" st) = Some rt ->
  status r = 401 ->
  let st' := run [Call id ManualRefreshToken; Answer (length (inflight st)) (Some r)] st in
  let sent := fst (requestInterceptor (refreshConfig rt) st) in
  isRefreshing st' = true /\
  refreshSubscribers st' =
    refreshSubscribers st ++ [mkSubscriber (with_retry true sent) (ManualRefresh id)] /\
  inflight st' = inflight st ++ [mkRequest sent AutoRefresh] /\
  refreshExchanges st' = refreshExchanges st + 2.
Proof.
  intros Hflag Hrt Hs st' sent. subst st'.
  unfold run. cbn [foldl step call].
  unfold manualRefreshToken, refreshToken_begin. rewrite Hrt.
  rewrite request_unfold. cbn zeta. fold sent.
  fold (step (emit (Sent (mkRequest sent (ManualRefresh id)))
          (with_inflight (inflight st ++ [mkRequest sent (ManualRefresh id)]) st))
          (Answer (length (inflight st)) (Some r))).
  erewrite step_answer_last by reflexivity.
  rewrite responseInterceptor_401
    by (try exact Hs; cbn [config]; apply requestInterceptor_retry).
  st_simpl. rewrite Hflag.
  change (getItem "refresh_token" _) with (getItem "refresh_token" st). rewrite Hrt.
  rewrite request_unfold. cbn zeta.
  rewrite (requestInterceptor_storage _ st) by reflexivity.
  fold sent. st_simpl. repeat split.
  erewrite refreshExchanges_app.
  2:{ st_simpl. rewrite <- app_assoc. reflexivity. }
  cbn [List.filter is_refresh_exchange app config].
  subst sent. rewrite requestInterceptor_url. cbn. reflexivity.
Qed.

Lemma manual_refresh_joins_queue_witness :
  isRefreshing
    (run [Call 1 ManualRefreshToken; Answer 0 (Some unauthorized)] (initial stored_pair))
  = true.
Proof.
  exact (proj1 (manual_refresh_joins_queue 1 "rt1" unauthorized (initial stored_pair)
                  eq_refl eq_refl eq_refl)).
Defined.

(** Apart from that path, the manual refresh leaves the flag and the list
    alone: when it is called, and when its request settles. *)
Lemma manual_refresh_frame (id : nat) (st : State) :
  (isRefreshing (manualRefreshToken id st) = isRefreshing st /\
   refreshSubscribers (manualRefreshToken id st) = refreshSubscribers st /\
   notifications (trace (manualRefreshToken id st)) = notifications (trace st)) /\
  (forall o : Outcome,
     isRefreshing (settle (ManualRefresh id) o st) = isRefreshing st /\
     refreshSubscribers (settle (ManualRefresh id) o st) = refreshSubscribers st /\
     notifications (trace (settle (ManualRefresh id) o st)) = notifications (trace st)).
Proof.
  split.
  - unfold manualRefreshToken, refreshToken_begin.
    destruct (truthy _).
    + rewrite request_unfold. cbn. unfold notifications. rewrite omap_app. cbn.
      rewrite app_nil_r. repeat split.
    + cbn. unfold notifications. rewrite omap_app. cbn.
      rewrite app_nil_r. repeat split.
  - intros o. unfold settle, resume, refreshToken_resume.
    destruct o as [[r| |]|e];
      try destruct (truthy (access_token (data r)));
      try destruct (truthy (refresh_token (data r)));
      cbn; unfold notifications; rewrite omap_app; cbn;
      rewrite app_nil_r; repeat split.
Qed.

(** ** Refresh failure *)

(** C4 (violated when /auth/refresh answers 401): the response interceptor
    takes the 401 answer to the refresh request itself and, the flag being
    set, parks it as one more Pending Caller.  [refreshToken()] never settles:
    the tokens stay in the store, nobody is notified, [isRefreshing] stays
    true, and with nothing left in flight no answer can ever change that. *)
Theorem refresh_rejected_401_hangs (c : Config) (id : nat) (rt : string)
    (r1 r2 : Response) (st : State) :
  isRefreshing st = false ->
  refreshSubscribers st = [] ->
  inflight st = [mkRequest c (Caller id)] ->
  _retry c = false ->
  truthy (getItem "refresh_token" st) = Some rt ->
  status r1 = 401 -> status r2 = 401 ->
  let st' := run [Answer 0 (Some r1); Answer 0 (Some r2)] st in
  let sent := fst (requestInterceptor (refreshConfig rt) st) in
  localStorage st' = localStorage st /\
  isRefreshing st' = true /\
  refreshSubscribers st' =
    [mkSubscriber (with_retry true c) (Caller id);
     mkSubscriber (with_retry true sent) AutoRefresh] /\
  notifications (trace st') = notifications (trace st) /\
  settlements (trace st') = settlements (trace st) /\
  inflight st' = [] /\
  (forall (n : nat) (answer : option Response), step st' (Answer n answer) = st').
Proof.
  intros Hflag Hsubs Hin Hc Hrt H1 H2 st' sent. subst st'.
  unfold run. cbn [foldl].
  erewrite (step_answer_head st) by exact Hin.
  rewrite responseInterceptor_401 by assumption.
  st_simpl. rewrite Hflag.
  change (getItem "refresh_token" _) with (getItem "refresh_token" st). rewrite Hrt.
  rewrite request_unfold. cbn zeta.
  rewrite (requestInterceptor_storage _ st) by reflexivity. fold sent.
  erewrite step_answer_head by reflexivity.
  rewrite responseInterceptor_401
    by (try exact H2; cbn [config]; apply requestInterceptor_retry).
  st_simpl. rewrite Hsubs. cbn [app].
  unfold notifications, settlements. rewrite !omap_app. cbn [omap].
  rewrite !app_nil_r.
  repeat split.
Qed.

Lemma refresh_rejected_401_hangs_witness :
  isRefreshing
    (run [Answer 0 (Some unauthorized); Answer 0 (Some unauthorized)]
       (run [Call 1 getProfile] (initial stored_pair))) = true.
Proof.
  exact (proj1 (proj2
    (refresh_rejected_401_hangs
       signed_profile 1 "rt1" unauthorized unauthorized
       (run [Call 1 getProfile] (initial stored_pair))
       eq_refl eq_refl eq_refl eq_refl eq_refl eq_refl eq_refl))).
Defined.

(** ** Notification of the Pending Callers *)

Lemma notifications_app (t1 t2 : list Effect) :
  notifications (t1 ++ t2) = notifications t1 ++ notifications t2.
Proof. apply omap_app. Qed.

Lemma settlements_app (t1 t2 : list Effect) :
  settlements (t1 ++ t2) = settlements t1 ++ settlements t2.
Proof. apply omap_app. Qed.

Lemma tokens_cleared_clearTokens (st : State) : tokens_cleared (clearTokens st).
Proof. split; rewrite getItem_clearTokens; reflexivity. Qed.

Lemma clearTokens_idle (st : State) :
  tokens_cleared st -> localStorage (clearTokens st) = localStorage st.
Proof.
  intros [Ha Hr]. unfold clearTokens, removeItem, getItem in *. cbn.
  rewrite (delete_id _ _ Ha). apply delete_id. exact Hr.
Qed.

(** Waking the awaiter of a rejected Pending Caller, once the list has been
    emptied: it reports to the application and at most clears the tokens. *)
Lemma wake_rejected (k : Awaiter) (err : Err) (st : State) :
  refreshSubscribers st = [] ->
  let st' := wake k (Rejected err) st in
  refreshSubscribers st' = [] /\
  inflight st' = inflight st /\
  trace st' = trace st ++ map (fun s => Settled s.1 s.2) (woken k err) /\
  (isRefreshing st = false -> isRefreshing st' = false) /\
  (tokens_cleared st -> localStorage st' = localStorage st).
Proof.
  intros Hsubs.
  destruct k as [id| |id|id]; unfold wake, resume, refreshToken_resume, refreshChain,
    onRefreshFailed; cbn zeta;
    change (refreshSubscribers (clearTokens st)) with (refreshSubscribers st);
    rewrite ?Hsubs; cbn; rewrite ?app_nil_r; repeat split; auto;
    try (intros H; apply (clearTokens_idle st H)).
Qed.

Lemma wake_all_rejected (err : Err) (subs : list RefreshSubscriber) (st : State) :
  refreshSubscribers st = [] ->
  let st' := foldl (fun s sub => wake (sub_awaiter sub) (Rejected err) s) st subs in
  refreshSubscribers st' = [] /\
  inflight st' = inflight st /\
  trace st' = trace st ++
    map (fun s => Settled s.1 s.2) (flat_map (fun sub => woken (sub_awaiter sub) err) subs) /\
  (isRefreshing st = false -> isRefreshing st' = false) /\
  (tokens_cleared st -> localStorage st' = localStorage st).
Proof.
  revert st. induction subs as [|sub subs IH]; intros st Hsubs; cbn [foldl].
  - cbn. rewrite app_nil_r. repeat split; auto.
  - destruct (wake_rejected (sub_awaiter sub) err st Hsubs) as (H1 & H2 & H3 & H4 & H5).
    destruct (IH _ H1) as (I1 & I2 & I3 & I4 & I5).
    cbn zeta in *. repeat split.
    + exact I1.
    + congruence.
    + rewrite I3, H3. cbn [flat_map]. rewrite map_app, app_assoc. reflexivity.
    + auto.
    + intros Hc. rewrite I5, H5; auto.
      destruct Hc as [Ha Hr]. unfold tokens_cleared, getItem in *.
      rewrite (H5 (conj Ha Hr)). auto.
Qed.

Lemma onRefreshFailed_trace (err : Err) (subs : list RefreshSubscriber) (st : State) :
  let st' := foldl (fun s sub => onError sub err s) st subs in
  trace st' = trace st ++ map (fun sub => Notified sub (inl err)) subs /\
  localStorage st' = localStorage st /\ inflight st' = inflight st /\
  isRefreshing st' = isRefreshing st /\ refreshSubscribers st' = refreshSubscribers st.
Proof.
  revert st. induction subs as [|sub subs IH]; intros st; cbn [foldl].
  - cbn. rewrite app_nil_r. repeat split.
  - destruct (IH (onError sub err st)) as (I1 & I2 & I3 & I4 & I5). cbn zeta in *.
    rewrite I1, I2, I3, I4, I5. cbn. rewrite <- app_assoc. repeat split.
Qed.

Lemma onRefreshed_trace (token : string) (subs : list RefreshSubscriber) (st : State) :
  let st' := foldl (fun s sub => onSuccess sub token s) st subs in
  trace st' = trace st ++
    flat_map (fun sub => [Notified sub (inr token); Sent (retryOf token st sub)]) subs /\
  inflight st' = inflight st ++ map (retryOf token st) subs /\
  localStorage st' = localStorage st /\
  isRefreshing st' = isRefreshing st /\ refreshSubscribers st' = refreshSubscribers st.
Proof.
  revert st. induction subs as [|sub subs IH]; intros st; cbn [foldl].
  - cbn. rewrite !app_nil_r. repeat split.
  - destruct (IH (onSuccess sub token st)) as (I1 & I2 & I3 & I4 & I5). cbn zeta in *.
    assert (forall s, retryOf token (onSuccess sub token st) s = retryOf token st s) as E.
    { intros s. unfold retryOf. f_equal. apply requestInterceptor_storage.
      unfold onSuccess. rewrite request_unfold. reflexivity. }
    rewrite I1, I2, I3, I4, I5.
    rewrite (List.map_ext _ _ E).
    rewrite (List.flat_map_ext _ (fun s => [Notified s (inr token); Sent (retryOf token st s)]))
      by (intros s; rewrite E; reflexivity).
    unfold onSuccess at 1 2 3 4 5. rewrite request_unfold. cbn.
    rewrite <- !app_assoc. cbn.
    rewrite (requestInterceptor_storage _ st) by reflexivity.
    repeat split.
Qed.

Lemma refreshChain_failed (err : Err) (st : State) :
  let subs := refreshSubscribers st in
  let st' := refreshChain wake (inl err) st in
  trace st' = trace st ++ map (fun sub => Notified sub (inl err)) subs ++
    map (fun s => Settled s.1 s.2) (flat_map (fun sub => woken (sub_awaiter sub) err) subs) /\
  refreshSubscribers st' = [] /\
  isRefreshing st' = false /\
  inflight st' = inflight st /\
  localStorage st' = localStorage (clearTokens st).
Proof.
  intros subs st'. subst st'. unfold refreshChain, onRefreshFailed. cbn zeta.
  change (refreshSubscribers (clearTokens st)) with (refreshSubscribers st).
  fold subs.
  destruct (onRefreshFailed_trace err subs (clearTokens st)) as (T & L & I & F & S).
  cbn zeta in *.
  set (st1 := foldl _ (clearTokens st) subs) in *.
  destruct (wake_all_rejected err subs
              (with_isRefreshing false (with_refreshSubscribers [] st1)) eq_refl)
    as (W1 & W2 & W3 & W4 & W5).
  cbn zeta in *. repeat split.
  - rewrite W3. cbn [trace with_isRefreshing with_refreshSubscribers].
    rewrite T, <- app_assoc. reflexivity.
  - exact W1.
  - apply W4. reflexivity.
  - rewrite W2. exact I.
  - rewrite W5; [exact L|].
    unfold tokens_cleared, getItem. cbn [localStorage with_isRefreshing with_refreshSubscribers].
    rewrite L. apply tokens_cleared_clearTokens.
Qed.

Lemma refreshChain_succeeded (token : string) (st : State) :
  let subs := refreshSubscribers st in
  let st' := refreshChain wake (inr token) st in
  trace st' = trace st ++
    flat_map (fun sub => [Notified sub (inr token); Sent (retryOf token st sub)]) subs /\
  refreshSubscribers st' = [] /\
  isRefreshing st' = false /\
  inflight st' = inflight st ++ map (retryOf token st) subs /\
  localStorage st' = localStorage st.
Proof.
  intros subs st'. subst st'. unfold refreshChain, onRefreshed.
  destruct (onRefreshed_trace token subs st) as (T & I & L & F & S).
  cbn zeta in *. fold subs. repeat split; assumption.
Qed.

Lemma notifications_notified (n : Err + string) (subs : list RefreshSubscriber) :
  notifications (map (fun sub => Notified sub n) subs) = map (fun sub => (sub, n)) subs.
Proof. induction subs as [|s l IH]; cbn; [reflexivity | f_equal; exact IH]. Qed.

Lemma notifications_settled (l : list (nat * Outcome)) :
  notifications (map (fun s => Settled s.1 s.2) l) = [].
Proof. induction l as [|s l IH]; cbn; [reflexivity | exact IH]. Qed.

Lemma notifications_retried (token : string) (f : RefreshSubscriber -> Request)
    (subs : list RefreshSubscriber) :
  notifications (flat_map (fun sub => [Notified sub (inr token); Sent (f sub)]) subs) =
  map (fun sub => (sub, inr token)) subs.
Proof. induction subs as [|s l IH]; cbn; [reflexivity | f_equal; exact IH]. Qed.

Lemma refreshChain_notifies (p : Err + string) (st : State) :
  notifications (trace (refreshChain wake p st)) =
    notifications (trace st) ++ map (fun sub => (sub, p)) (refreshSubscribers st) /\
  refreshSubscribers (refreshChain wake p st) = [].
Proof.
  destruct p as [err|token].
  - destruct (refreshChain_failed err st) as (T & S & _). cbn zeta in *.
    rewrite T, !notifications_app, notifications_notified, notifications_settled,
      app_nil_r. split; [reflexivity | exact S].
  - destruct (refreshChain_succeeded token st) as (T & S & _). cbn zeta in *.
    rewrite T, notifications_app, notifications_retried. split; [reflexivity | exact S].
Qed.

(** A refresh that fails in any other way reaches the catch handler: the
    tokens are removed, every Pending Caller is notified with the error, the
    list is emptied and the flag reset. *)
Lemma refresh_failure_clears_session (err : Err) (st : State) :
  let st' := refreshChain wake (inl err) st in
  tokens_cleared st' /\
  notifications (trace st') =
    notifications (trace st) ++ map (fun sub => (sub, inl err)) (refreshSubscribers st) /\
  refreshSubscribers st' = [] /\
  isRefreshing st' = false.
Proof.
  destruct (refreshChain_failed err st) as (_ & S & F & _ & L).
  destruct (refreshChain_notifies (inl err) st) as [N _].
  cbn zeta in *. repeat split; try assumption.
  - unfold getItem. rewrite L. apply tokens_cleared_clearTokens.
  - unfold getItem. rewrite L. apply tokens_cleared_clearTokens.
Qed.

Lemma subscribe_all (new : list RefreshSubscriber) (st : State) :
  let st' := foldl (fun s sub => subscribeTokenRefresh sub s) st new in
  refreshSubscribers st' = refreshSubscribers st ++ new /\ trace st' = trace st.
Proof.
  revert st. induction new as [|sub new IH]; intros st; cbn [foldl].
  - cbn. rewrite app_nil_r. split; reflexivity.
  - destruct (IH (subscribeTokenRefresh sub st)) as [I1 I2]. cbn zeta in *.
    rewrite I1, I2. cbn. rewrite <- app_assoc. split; reflexivity.
Qed.

Lemma refreshToken_resume_frame (o : Outcome) (st : State) :
  refreshSubscribers (refreshToken_resume o st).2 = refreshSubscribers st /\
  trace (refreshToken_resume o st).2 = trace st /\
  inflight (refreshToken_resume o st).2 = inflight st /\
  isRefreshing (refreshToken_resume o st).2 = isRefreshing st.
Proof.
  unfold refreshToken_resume. destruct o as [[r| |]|e]; try (repeat split; fail).
  destruct (truthy (access_token (data r))), (truthy (refresh_token (data r)));
    repeat split.
Qed.

(** C2: when the refresh settles, with the error [inl err] or the new access
    token [inr token], the callbacks invoked are exactly one per registered
    subscriber, in the order of registration, all with that same verdict
    (onError with the error, or onSuccess with the token); the list is empty
    afterwards, so that a later settlement notifies none of them again.  The
    settlement of the awaited refresh request and the immediate failure of
    [refreshToken()] both run this chain. *)
Theorem subscribers_notified_exactly_once (st : State) (new : list RefreshSubscriber)
    (p : Err + string) :
  let st1 := foldl (fun s sub => subscribeTokenRefresh sub s) st new in
  let st2 := refreshChain wake p st1 in
  refreshSubscribers st1 = refreshSubscribers st ++ new /\
  notifications (trace st2) =
    notifications (trace st) ++ map (fun sub => (sub, p)) (refreshSubscribers st ++ new) /\
  refreshSubscribers st2 = [] /\
  (forall q : Err + string,
     notifications (trace (refreshChain wake q st2)) = notifications (trace st2)) /\
  (forall o : Outcome,
     settle AutoRefresh o st1 =
       refreshChain wake (refreshToken_resume o st1).1 (refreshToken_resume o st1).2 /\
     refreshSubscribers (refreshToken_resume o st1).2 = refreshSubscribers st1 /\
     trace (refreshToken_resume o st1).2 = trace st1).
Proof.
  intros st1 st2.
  destruct (subscribe_all new st) as [S1 T1]. fold st1 in S1, T1.
  destruct (refreshChain_notifies p st1) as [N2 S2]. fold st2 in N2, S2.
  repeat split.
  - exact S1.
  - rewrite N2, T1, S1. reflexivity.
  - exact S2.
  - intros q. destruct (refreshChain_notifies q st2) as [N3 _].
    rewrite N3, S2. cbn. apply app_nil_r.
  - unfold settle, resume. destruct (refreshToken_resume o st1). reflexivity.
  - apply refreshToken_resume_frame.
  - apply refreshToken_resume_frame.
Qed.

(** ** At most one retry *)

Lemma validateStatus_not_401 (s : nat) : validateStatus s = true -> Nat.eqb s 401 = false.
Proof.
  unfold validateStatus. intros [_ H]%andb_prop. apply Nat.ltb_lt in H.
  apply Nat.eqb_neq. lia.
Qed.

Lemma retried_call_settles (rq : Request) (id : nat) (answer : option Response) (st : State) :
  _retry (config rq) = true -> awaiter rq = Caller id ->
  responseInterceptor rq answer st = emit (Settled id (outcome_of answer)) st.
Proof.
  intros Hr Hk. rewrite responseInterceptor_passthrough.
  - rewrite Hk. reflexivity.
  - rewrite Hr. apply andb_false_r.
Qed.

Lemma getItem_setItem (key key' value : string) (st : State) :
  getItem key (setItem key' value st) =
  if decide (key' = key) then Some value else getItem key st.
Proof. unfold getItem, setItem. cbn. apply lookup_insert. Qed.

Lemma refresh_answered (rq : Request) (answer : option Response) (st : State) :
  awaiter rq = AutoRefresh -> is401 answer = false ->
  responseInterceptor rq answer st =
  refreshChain wake (refreshToken_resume (outcome_of answer) st).1
                    (refreshToken_resume (outcome_of answer) st).2.
Proof.
  intros Hk H. rewrite responseInterceptor_passthrough by (rewrite H; reflexivity).
  rewrite Hk. unfold settle, resume. destruct (refreshToken_resume _ _). reflexivity.
Qed.

Lemma refreshToken_resume_cases (o : Outcome) (st : State) :
  (exists err, refreshToken_resume o st = (inl err, st)) \/
  (exists a r', refreshToken_resume o st =
     (inr a, setItem "refresh_token" r' (setItem "access_token" a st)) /\
     a <> EmptyString).
Proof.
  unfold refreshToken_resume. destruct o as [[r| |]|e]; try (left; eexists; reflexivity).
  destruct (truthy (access_token (data r))) as [a|] eqn:Ha;
    [|left; eexists; reflexivity].
  destruct (truthy (refresh_token (data r))) as [r'|] eqn:Hr;
    [|left; eexists; reflexivity].
  right. exists a, r'. split; [reflexivity|].
  apply truthy_Some in Ha. tauto.
Qed.

Lemma run_app (evs1 evs2 : list Event) (st : State) :
  run (evs1 ++ evs2) st = run evs2 (run evs1 st).
Proof. apply foldl_app. Qed.

Lemma run_cons (ev : Event) (evs : list Event) (st : State) :
  run (ev :: evs) st = run evs (step st ev).
Proof. reflexivity. Qed.

Lemma pick {A B} (f : A -> B) (l : list A) (extra : list B) (n : nat) :
  n < length l ->
  exists x : A,
    l !! n = Some x /\
    (map f l ++ extra) !! n = Some (f x) /\
    delete n (map f l ++ extra) = map f (delete n l) ++ extra /\
    S (length (delete n l)) = length l.
Proof.
  revert n. induction l as [|y l IH]; intros n Hn; [cbn in Hn; lia|].
  destruct n as [|n].
  - exists y. repeat split.
  - destruct (IH n) as (x & H1 & H2 & H3 & H4); [cbn in Hn; lia|].
    exists x. change (delete (S n) (y :: l)) with (y :: delete n l).
    cbn [map app length]. repeat split; try assumption.
    + change (delete (S n) (f y :: (map f l ++ extra)))
        with (f y :: delete n (map f l ++ extra)).
      rewrite H3. reflexivity.
    + rewrite H4. reflexivity.
Qed.

Lemma pick_all {A B} (f : A -> B) (l : list A) (n : nat) :
  n < length l ->
  exists x : A,
    l !! n = Some x /\
    map f l !! n = Some (f x) /\
    delete n (map f l) = map f (delete n l) /\
    S (length (delete n l)) = length l.
Proof.
  intros Hn. destruct (pick f l [] n Hn) as (x & H1 & H2 & H3 & H4).
  rewrite app_nil_r in H2. rewrite !app_nil_r in H3. eauto.
Qed.

Lemma step_answer_at (st : State) (n : nat) (rq : Request) (answer : option Response) :
  inflight st !! n = Some rq ->
  step st (Answer n answer) =
  responseInterceptor rq answer (with_inflight (delete n (inflight st)) st).
Proof. intros H. unfold step. rewrite H. reflexivity. Qed.

Lemma run_settled (evs : list Event) (st : State) :
  (forall ev, ev ∈ evs -> exists n a, ev = Answer n a) ->
  inflight st = [] -> run evs st = st.
Proof.
  intros Hev H. induction evs as [|ev evs IH]; [reflexivity|].
  destruct (Hev ev) as (n & a & ->); [left|].
  rewrite run_cons. unfold step at 1. rewrite H, lookup_nil.
  apply IH. intros ev' Hin. apply Hev. right. exact Hin.
Qed.

(** While a refresh is under way, each further 401 only joins the list, in
    the order of arrival. *)
Lemma denied_calls_join (order : list nat) (denials : list Response)
    (calls : list (Config * nat)) (extra : list Request) (st : State) :
  draining (length calls) order = true ->
  Forall (fun x => _retry x.1 = false) calls ->
  Forall (fun r => status r = 401) denials ->
  length denials = length calls ->
  isRefreshing st = true ->
  inflight st = map callRequest calls ++ extra ->
  let st' := run (zip_with denyAt order denials) st in
  exists arrived : list (Config * nat),
    arrived ≡ₚ calls /\
    inflight st' = extra /\
    refreshSubscribers st' = refreshSubscribers st ++ map parked arrived /\
    trace st' = trace st /\ localStorage st' = localStorage st /\
    isRefreshing st' = true.
Proof.
  revert denials calls st.
  induction order as [|n order IH]; intros denials calls st Ho Hc Hd Hlen Hflag Hin.
  - cbn in Ho. apply Nat.eqb_eq in Ho. destruct calls; [|discriminate].
    exists []. cbn. rewrite app_nil_r. repeat split; auto.
  - cbn [draining] in Ho. apply andb_prop in Ho as [Hn Ho]. apply Nat.ltb_lt in Hn.
    destruct (pick callRequest calls extra n Hn) as (x & Hx & Hrq & Hdel & Hlen').
    destruct denials as [|r denials]; [cbn in Hlen; lia|].
    inversion Hd as [|? ? Hr Hd']; subst.
    cbn [zip_with]. rewrite run_cons. change (denyAt n r) with (Answer n (Some r)).
    rewrite <- Hin in Hrq, Hdel.
    rewrite (step_answer_at _ _ _ _ Hrq), Hdel.
    rewrite responseInterceptor_401;
      [|exact Hr | eapply (proj1 (Forall_forall _ _) Hc), list_elem_of_lookup_2, Hx].
    cbn zeta. cbn [isRefreshing with_inflight]. rewrite Hflag.
    set (st1 := subscribeTokenRefresh _ _).
    destruct (IH denials (delete n calls) st1) as (arrived & P & I1 & I2 & I3 & I4 & I5).
    + replace (length (delete n calls)) with (pred (length calls)) by lia. exact Ho.
    + apply Forall_delete. exact Hc.
    + exact Hd'.
    + cbn in Hlen. lia.
    + exact Hflag.
    + reflexivity.
    + exists (x :: arrived). cbn zeta in *. rewrite I1, I2, I3, I4, I5. subst st1. cbn.
      rewrite <- app_assoc. repeat split.
      rewrite P. symmetry. apply delete_Permutation. exact Hx.
Qed.

Lemma first_denial_starts_refresh (n : nat) (rq : Request) (rt : string)
    (r : Response) (st : State) :
  isRefreshing st = false ->
  truthy (getItem "refresh_token" st) = Some rt ->
  inflight st !! n = Some rq ->
  _retry (config rq) = false ->
  status r = 401 ->
  step st (Answer n (Some r)) =
  subscribeTokenRefresh (mkSubscriber (with_retry true (config rq)) (awaiter rq))
    (request (refreshConfig rt) AutoRefresh
       (with_isRefreshing true (with_inflight (delete n (inflight st)) st))).
Proof.
  intros Hflag Hrt Hin Hr Hs.
  rewrite (step_answer_at _ _ _ _ Hin).
  rewrite responseInterceptor_401 by assumption.
  cbn zeta. cbn [isRefreshing with_inflight]. rewrite Hflag.
  change (getItem "refresh_token" (with_inflight _ st)) with (getItem "refresh_token" st).
  rewrite Hrt. reflexivity.
Qed.

(** Retried requests answered in any order: each answer settles its caller. *)
Lemma retries_settle {B} (g : B -> Request) (idf : B -> nat) (order : list nat)
    (finals : list (option Response)) (ys : list B) (st : State) :
  (forall y, _retry (config (g y)) = true /\ awaiter (g y) = Caller (idf y)) ->
  draining (length ys) order = true ->
  length finals = length ys ->
  inflight st = map g ys ->
  let st' := run (zip_with Answer order finals) st in
  exists settled : list (nat * Outcome),
    map fst settled ≡ₚ map idf ys /\
    inflight st' = [] /\
    trace st' = trace st ++ map (fun x => Settled x.1 x.2) settled /\
    isRefreshing st' = isRefreshing st /\
    refreshSubscribers st' = refreshSubscribers st /\
    localStorage st' = localStorage st.
Proof.
  intros Hg. revert finals ys st.
  induction order as [|n order IH]; intros finals ys st Ho Hlen Hin.
  - cbn in Ho. apply Nat.eqb_eq in Ho. destruct ys; [|discriminate].
    exists []. cbn. rewrite app_nil_r. split; [reflexivity|].
    split; [exact Hin|]. repeat split.
  - cbn [draining] in Ho. apply andb_prop in Ho as [Hn Ho]. apply Nat.ltb_lt in Hn.
    destruct (pick_all g ys n Hn) as (y & Hy & Hrq & Hdel & Hlen').
    rewrite <- Hin in Hrq, Hdel.
    destruct finals as [|a finals]; [cbn in Hlen; lia|].
    cbn [zip_with]. rewrite run_cons, (step_answer_at _ _ _ _ Hrq), Hdel.
    destruct (Hg y) as [Hr Hk].
    rewrite (retried_call_settles _ (idf y)) by assumption.
    set (st1 := emit _ _).
    destruct (IH finals (delete n ys) st1) as (settled & P & I1 & I2 & I3 & I4 & I5).
    + replace (length (delete n ys)) with (pred (length ys)) by lia. exact Ho.
    + cbn in Hlen. lia.
    + reflexivity.
    + exists ((idf y, outcome_of a) :: settled). cbn zeta in *.
      rewrite I1, I2, I3, I4, I5. subst st1. cbn. rewrite <- app_assoc.
      repeat split.
      rewrite P. change (idf y :: map idf (delete n ys)) with (map idf (y :: delete n ys)).
      apply Permutation_map. symmetry. apply delete_Permutation. exact Hy.
Qed.

Lemma settlements_settled (l : list (nat * Outcome)) :
  settlements (map (fun s => Settled s.1 s.2) l) = l.
Proof. induction l as [|[id o] l IH]; cbn; [reflexivity | f_equal; exact IH]. Qed.

Lemma settlements_notified (n : Err + string) (subs : list RefreshSubscriber) :
  settlements (map (fun sub => Notified sub n) subs) = [].
Proof. induction subs as [|s l IH]; cbn; [reflexivity | exact IH]. Qed.

Lemma settlements_retried (token : string) (f : RefreshSubscriber -> Request)
    (subs : list RefreshSubscriber) :
  settlements (flat_map (fun sub => [Notified sub (inr token); Sent (f sub)]) subs) = [].
Proof. induction subs as [|s l IH]; cbn; [reflexivity | exact IH]. Qed.

Lemma exchanges_settled (l : list (nat * Outcome)) :
  List.filter is_refresh_exchange (map (fun s => Settled s.1 s.2) l) = [].
Proof. induction l as [|s l IH]; cbn; [reflexivity | exact IH]. Qed.

Lemma exchanges_notified (n : Err + string) (subs : list RefreshSubscriber) :
  List.filter is_refresh_exchange (map (fun sub => Notified sub n) subs) = [].
Proof. induction subs as [|s l IH]; cbn; [reflexivity | exact IH]. Qed.

Lemma retry_is_no_exchange (token : string) (st : State) (x : Config * nat) :
  url x.1 <> "/auth/refresh" ->
  is_refresh_exchange (Sent (retryOf token st (parked x))) = false.
Proof.
  intros Hx. unfold is_refresh_exchange, retryOf. cbn [config].
  rewrite requestInterceptor_url. cbn. apply bool_decide_eq_false_2. exact Hx.
Qed.

Lemma exchanges_retried (token : string) (st : State) (calls : list (Config * nat)) :
  Forall (fun x => url x.1 <> "/auth/refresh") calls ->
  List.filter is_refresh_exchange
    (flat_map (fun sub => [Notified sub (inr token); Sent (retryOf token st sub)])
       (map parked calls)) = [].
Proof.
  induction 1 as [|x l Hx H IH]; cbn [map flat_map app List.filter]; [reflexivity|].
  rewrite (retry_is_no_exchange token st x Hx). exact IH.
Qed.

Lemma woken_parked (err : Err) (calls : list (Config * nat)) :
  flat_map (fun sub => woken (sub_awaiter sub) err) (map parked calls) =
  map (fun x => (x.2, Rejected err)) calls.
Proof. induction calls as [|x l IH]; cbn; [reflexivity | f_equal; exact IH]. Qed.

Lemma retry_of_parked (token : string) (st : State) (x : Config * nat) :
  _retry (config (retryOf token st (parked x))) = true /\
  awaiter (retryOf token st (parked x)) = Caller x.2.
Proof.
  unfold retryOf. cbn [config awaiter]. rewrite requestInterceptor_retry.
  split; reflexivity.
Qed.

(** ** Single flight *)

Lemma concurrent_denials (order : list nat) (calls : list (Config * nat))
    (denials : list Response) (rt : string) (st : State) :
  calls <> [] ->
  draining (length calls) order = true ->
  Forall (fun x => _retry x.1 = false) calls ->
  Forall (fun r => status r = 401) denials ->
  length denials = length calls ->
  isRefreshing st = false ->
  refreshSubscribers st = [] ->
  inflight st = map callRequest calls ->
  truthy (getItem "refresh_token" st) = Some rt ->
  let st1 := run (zip_with denyAt order denials) st in
  let exchange := mkRequest (requestInterceptor (refreshConfig rt) st).1 AutoRefresh in
  exists arrived : list (Config * nat),
    arrived ≡ₚ calls /\
    trace st1 = trace st ++ [Sent exchange] /\
    isRefreshing st1 = true /\
    inflight st1 = [exchange] /\
    refreshSubscribers st1 = map parked arrived /\
    localStorage st1 = localStorage st.
Proof.
  intros Hne Ho Hc Hd Hlen Hflag Hsubs Hin Hrt.
  destruct order as [|n order].
  { cbn in Ho. apply Nat.eqb_eq in Ho. destruct calls; [contradiction | discriminate]. }
  cbn [draining] in Ho. apply andb_prop in Ho as [Hn Ho]. apply Nat.ltb_lt in Hn.
  destruct (pick_all callRequest calls n Hn) as (x & Hx & Hrq & Hdel & Hlen').
  rewrite <- Hin in Hrq, Hdel.
  destruct denials as [|r denials]; [cbn in Hlen; lia|].
  inversion Hd as [|? ? Hr Hd']; subst.
  cbn [zip_with]. rewrite run_cons. change (denyAt n r) with (Answer n (Some r)).
  assert (_retry x.1 = false) as Hxr
    by (eapply (proj1 (Forall_forall _ _) Hc), list_elem_of_lookup_2, Hx).
  rewrite (first_denial_starts_refresh _ _ rt _ _ Hflag Hrt Hrq Hxr Hr), Hdel.
  rewrite request_unfold. cbn zeta.
  rewrite (requestInterceptor_storage _ st) by reflexivity.
  set (exchange := mkRequest _ AutoRefresh).
  set (st0 := subscribeTokenRefresh _ _).
  destruct (denied_calls_join order denials (delete n calls) [exchange] st0)
    as (arrived & P & I1 & I2 & I3 & I4 & I5).
  - replace (length (delete n calls)) with (pred (length calls)) by lia. exact Ho.
  - apply Forall_delete. exact Hc.
  - exact Hd'.
  - cbn in Hlen. lia.
  - reflexivity.
  - reflexivity.
  - exists (x :: arrived). cbn zeta in *. rewrite I1, I2, I3, I4, I5. subst st0. cbn.
    rewrite Hsubs. repeat split.
    rewrite P. symmetry. apply delete_Permutation. exact Hx.
Qed.

Lemma refresh_settles_all (order : list nat) (arrived : list (Config * nat))
    (rq : Request) (answer : option Response) (finals : list (option Response))
    (st : State) :
  Forall (fun x => url x.1 <> "/auth/refresh") arrived ->
  draining (length arrived) order = true ->
  length finals = length arrived ->
  awaiter rq = AutoRefresh ->
  is401 answer = false ->
  inflight st = [rq] ->
  refreshSubscribers st = map parked arrived ->
  let st' := run (Answer 0 answer :: zip_with Answer order finals) st in
  isRefreshing st' = false /\
  refreshSubscribers st' = [] /\
  inflight st' = [] /\
  refreshExchanges st' = refreshExchanges st /\
  exists settled : list (nat * Outcome),
    map fst settled ≡ₚ map snd arrived /\
    settlements (trace st') = settlements (trace st) ++ settled.
Proof.
  intros Hurl Ho Hlen Hk H401 Hin Hsubs. cbn zeta.
  rewrite run_cons, (step_answer_head _ _ _ _ Hin), (refresh_answered _ _ _ Hk H401).
  set (st0 := with_inflight [] st).
  destruct (refreshToken_resume_cases (outcome_of answer) st0)
    as [[err ->] | (a & r' & -> & Ha)]; cbn [fst snd].
  - destruct (refreshChain_failed err st0) as (T & S & F & I & L). cbn zeta in *.
    rewrite run_settled; [|clear; intros ev Hev|exact I].
    2:{ apply elem_of_lookup_zip_with in Hev as (i & n & a & -> & _). eauto. }
    change (refreshSubscribers st0) with (refreshSubscribers st) in T.
    rewrite Hsubs in T. rewrite woken_parked in T.
    repeat split; try assumption.
    + erewrite refreshExchanges_app by exact T.
      change (refreshExchanges st0) with (refreshExchanges st).
      rewrite List.filter_app, exchanges_notified, exchanges_settled. cbn. lia.
    + exists (map (fun x : Config * nat => (x.2, Rejected err)) arrived). split.
      * rewrite List.map_map. reflexivity.
      * rewrite T, !settlements_app, settlements_notified, settlements_settled.
        reflexivity.
  - set (st1 := setItem _ _ _).
    destruct (refreshChain_succeeded a st1) as (T & S & F & I & L). cbn zeta in *.
    change (refreshSubscribers st1) with (refreshSubscribers st) in T, I.
    rewrite Hsubs in T, I. change (inflight st1) with (@nil Request) in I.
    cbn [app] in I. rewrite List.map_map in I.
    destruct (retries_settle (fun x => retryOf a st1 (parked x)) snd order finals arrived _
                (retry_of_parked a st1) Ho Hlen I)
      as (settled & P & R1 & R2 & R3 & R4 & R5).
    cbn zeta in *. repeat split.
    + rewrite R3. exact F.
    + rewrite R4. exact S.
    + exact R1.
    + erewrite refreshExchanges_app by (rewrite R2, T, <- app_assoc; reflexivity).
      change (refreshExchanges st1) with (refreshExchanges st).
      rewrite List.filter_app, (exchanges_retried _ _ _ Hurl), exchanges_settled.
      cbn. lia.
    + exists settled. split; [exact P|].
      rewrite R2, T, !settlements_app, settlements_retried, settlements_settled.
      rewrite app_nil_r. reflexivity.
Qed.

(** ** At most one automatic refresh is outstanding *)

Lemma filter_delete_length {A} (f : A -> bool) (l : list A) (n : nat) (x : A) :
  l !! n = Some x ->
  length (List.filter f l) =
  length (List.filter f (delete n l)) + (if f x then 1 else 0).
Proof.
  revert n. induction l as [|y l IH]; intros n H; [discriminate|].
  destruct n as [|n].
  - injection H as ->. change (delete 0 (x :: l)) with l.
    cbn [List.filter]. destruct (f x); cbn [length]; lia.
  - change (delete (S n) (y :: l)) with (y :: delete n l).
    change ((y :: l) !! S n) with (l !! n) in H.
    cbn [List.filter]. specialize (IH n H).
    destruct (f y); cbn [length]; lia.
Qed.

Lemma outstanding_request (c : Config) (k : Awaiter) (st : State) :
  outstanding (request c k st) = outstanding st + (if refreshing k then 1 else 0) /\
  parkedRefreshes (request c k st) = parkedRefreshes st /\
  isRefreshing (request c k st) = isRefreshing st.
Proof.
  rewrite request_unfold. unfold outstanding, parkedRefreshes. cbn.
  rewrite List.filter_app, length_app. cbn. destruct (refreshing k); repeat split.
Qed.

Lemma single_refresh_call (id : nat) (op : Operation) (st : State) :
  single_refresh st -> single_refresh (call id op st).
Proof.
  unfold single_refresh. intros H.
  assert (forall c k, refreshing k = false ->
            outstanding (request c k st) + parkedRefreshes (request c k st)
            <= (if isRefreshing (request c k st) then 1 else 0)) as Hreq.
  { intros c k Hk. destruct (outstanding_request c k st) as (-> & -> & ->).
    rewrite Hk. lia. }
  destruct op as [m u b|pid i|pid|u|u|req| |]; cbn [call].
  - apply Hreq. reflexivity.
  - unfold getLinksByProjectId. destruct (truthy pid); [apply Hreq; reflexivity | exact H].
  - unfold regenerateApiKey. destruct (truthy pid); [apply Hreq; reflexivity | exact H].
  - apply Hreq. reflexivity.
  - apply Hreq. reflexivity.
  - unfold getAnalyticsBreakdown.
    destruct (breakdownPayload req); [exact H | apply Hreq; reflexivity].
  - unfold manualRefreshToken, refreshToken_begin.
    destruct (truthy _); [apply Hreq; reflexivity | exact H].
  - apply Hreq. reflexivity.
Qed.

Lemma retries_outstanding (token : string) (st : State) (subs : list RefreshSubscriber) :
  length (List.filter (fun rq => refreshing (awaiter rq)) (map (retryOf token st) subs)) =
  length (List.filter (fun sub => refreshing (sub_awaiter sub)) subs).
Proof.
  induction subs as [|s l IH]; cbn; [reflexivity|].
  destruct (refreshing (sub_awaiter s)); cbn; rewrite IH; reflexivity.
Qed.

Lemma single_refresh_chain (p : Err + string) (st : State) :
  outstanding st + parkedRefreshes st = 0 ->
  single_refresh (refreshChain wake p st).
Proof.
  intros H. unfold single_refresh. destruct p as [err|token].
  - destruct (refreshChain_failed err st) as (_ & S & F & I & _). cbn zeta in *.
    unfold outstanding, parkedRefreshes in *. rewrite S, F, I. cbn. lia.
  - destruct (refreshChain_succeeded token st) as (_ & S & F & I & _). cbn zeta in *.
    unfold outstanding, parkedRefreshes in *. rewrite S, F, I.
    rewrite List.filter_app, length_app, retries_outstanding. cbn. lia.
Qed.

Lemma single_refresh_answer (rq : Request) (answer : option Response) (st : State) :
  outstanding st + parkedRefreshes st + (if refreshing (awaiter rq) then 1 else 0)
    <= (if isRefreshing st then 1 else 0) ->
  single_refresh (responseInterceptor rq answer st).
Proof.
  intros H.
  destruct (is401 answer && negb (_retry (config rq))) eqn:E.
  - apply andb_prop in E as [E1 E2]. apply negb_true_iff in E2.
    destruct answer as [r|]; [|discriminate]. apply Nat.eqb_eq in E1.
    rewrite responseInterceptor_401 by assumption. cbn zeta.
    destruct (isRefreshing st) eqn:F.
    + unfold single_refresh, outstanding, parkedRefreshes in *. cbn. rewrite F.
      rewrite List.filter_app, length_app. cbn.
      destruct (refreshing (awaiter rq)); cbn; lia.
    + assert (refreshing (awaiter rq) = false) as Hk
        by (destruct (refreshing (awaiter rq)); [lia | reflexivity]).
      destruct (truthy _) as [rt|].
      * destruct (outstanding_request (refreshConfig rt) AutoRefresh
                    (with_isRefreshing true st)) as (O & P & Fl).
        unfold single_refresh, outstanding, parkedRefreshes in *. cbn in *.
        rewrite O, Fl, List.filter_app, length_app. cbn. rewrite Hk. cbn. lia.
      * apply single_refresh_chain.
        unfold outstanding, parkedRefreshes in *. cbn.
        rewrite List.filter_app, length_app. cbn. rewrite Hk. cbn. lia.
  - rewrite responseInterceptor_passthrough by exact E.
    destruct (awaiter rq) as [id| |id|id] eqn:K; unfold settle, resume.
    + unfold single_refresh, outstanding, parkedRefreshes in *. cbn in *. lia.
    + destruct (refreshToken_resume_frame (outcome_of answer) st) as (S & _ & I & F).
      destruct (refreshToken_resume _ _) as [p st1]. cbn [fst snd] in *.
      apply single_refresh_chain. unfold outstanding, parkedRefreshes in *.
      rewrite S, I. cbn in H. destruct (isRefreshing st); lia.
    + destruct (refreshToken_resume_frame (outcome_of answer) st) as (S & _ & I & F).
      unfold single_refresh, outstanding, parkedRefreshes in *.
      destruct (refreshToken_resume _ _) as [[e|a] st1]; cbn in *;
        rewrite S, I, F; lia.
    + unfold single_refresh, outstanding, parkedRefreshes in *. cbn in *. lia.
Qed.

Lemma single_refresh_step (ev : Event) (st : State) :
  single_refresh st -> single_refresh (step st ev).
Proof.
  intros H. destruct ev as [id op | n answer]; cbn [step].
  - apply single_refresh_call. exact H.
  - destruct (inflight st !! n) as [rq|] eqn:E; [|exact H].
    apply single_refresh_answer.
    unfold single_refresh, outstanding, parkedRefreshes in *. cbn.
    rewrite (filter_delete_length _ _ _ _ E) in H. lia.
Qed.

Lemma single_refresh_run (evs : list Event) (st : State) :
  single_refresh st -> single_refresh (run evs st).
Proof.
  revert st. induction evs as [|ev evs IH]; intros st H; [exact H|].
  rewrite run_cons. apply IH, single_refresh_step, H.
Qed.

(** C1 (as amended): with a non-empty refresh token stored and no refresh
    under way, N >= 1 concurrent calls that each receive a 401, in any order
    of arrival, cause exactly one exchange with /auth/refresh, outstanding
    while the N calls wait in the subscriber list; once that exchange is
    answered by anything but a 401, and the retried calls are answered (in
    any order), no further exchange has been made and each of the N calls
    has settled exactly once, with a success or an error.  In every run the
    automatic refresh has at most one request outstanding, and none while
    [isRefreshing] is false. *)
Theorem single_flight (calls : list (Config * nat)) (arrival : list nat)
    (denials : list Response) (rt : string) (answer : option Response)
    (completion : list nat) (finals : list (option Response)) (st : State) :
  calls <> [] ->
  Forall (fun x => _retry x.1 = false /\ url x.1 <> "/auth/refresh") calls ->
  draining (length calls) arrival = true ->
  Forall (fun r => status r = 401) denials ->
  length denials = length calls ->
  draining (length calls) completion = true ->
  length finals = length calls ->
  isRefreshing st = false ->
  refreshSubscribers st = [] ->
  inflight st = map callRequest calls ->
  truthy (getItem "refresh_token" st) = Some rt ->
  is401 answer = false ->
  let st1 := run (zip_with denyAt arrival denials) st in
  let st3 := run (Answer 0 answer :: zip_with Answer completion finals) st1 in
  (refreshExchanges st1 = refreshExchanges st + 1 /\
   isRefreshing st1 = true /\
   inflight st1 = [mkRequest (requestInterceptor (refreshConfig rt) st).1 AutoRefresh] /\
   refreshSubscribers st1 ≡ₚ map parked calls /\
   settlements (trace st1) = settlements (trace st)) /\
  (refreshExchanges st3 = refreshExchanges st + 1 /\
   isRefreshing st3 = false /\
   refreshSubscribers st3 = [] /\
   inflight st3 = [] /\
   exists settled : list (nat * Outcome),
     map fst settled ≡ₚ map snd calls /\
     settlements (trace st3) = settlements (trace st) ++ settled) /\
  (forall (evs : list Event) (storage : gmap string string),
     outstanding (run evs (initial storage)) <= 1 /\
     (isRefreshing (run evs (initial storage)) = false ->
      outstanding (run evs (initial storage)) = 0)).
Proof.
  intros Hne Hc Ho1 Hd Hlen Ho3 Hlen' Hflag Hsubs Hin Hrt H401 st1 st3.
  assert (Forall (fun x : Config * nat => _retry x.1 = false) calls) as Hc1
    by (eapply Forall_impl; [exact Hc | intros x [H _]; exact H]).
  assert (Forall (fun x : Config * nat => url x.1 <> "/auth/refresh") calls) as Hc2
    by (eapply Forall_impl; [exact Hc | intros x [_ H]; exact H]).
  destruct (concurrent_denials arrival calls denials rt st
              Hne Ho1 Hc1 Hd Hlen Hflag Hsubs Hin Hrt)
    as (arrived & P & T1 & F1 & I1 & S1 & L1).
  cbn zeta in *. fold st1 in T1, F1, I1, S1, L1.
  assert (refreshExchanges st1 = refreshExchanges st + 1) as E1.
  { rewrite (refreshExchanges_app st st1 _ T1). cbn [List.filter is_refresh_exchange config].
    rewrite requestInterceptor_url. reflexivity. }
  assert (settlements (trace st1) = settlements (trace st)) as Q1.
  { rewrite T1, settlements_app. cbn. apply app_nil_r. }
  assert (Forall (fun x : Config * nat => url x.1 <> "/auth/refresh") arrived) as Hc3
    by (rewrite P; exact Hc2).
  assert (length arrived = length calls) as Hla by (rewrite P; reflexivity).
  destruct (refresh_settles_all completion arrived
              (mkRequest (requestInterceptor (refreshConfig rt) st).1 AutoRefresh)
              answer finals st1 Hc3
              ltac:(rewrite Hla; exact Ho3) ltac:(rewrite Hla; exact Hlen')
              eq_refl H401 I1 S1)
    as (F3 & S3 & I3 & E3 & settled & Ps & Q3).
  cbn zeta in *. fold st3 in F3, S3, I3, E3, Q3.
  split; [|split].
  - repeat split; try assumption. rewrite S1, P. reflexivity.
  - repeat split; try assumption.
    + rewrite E3. exact E1.
    + exists settled. split; [rewrite Ps, P; reflexivity|]. rewrite Q3, Q1. reflexivity.
  - intros evs storage.
    assert (single_refresh (run evs (initial storage))) as H.
    { apply single_refresh_run.
      unfold single_refresh, outstanding, parkedRefreshes. cbn. lia. }
    unfold single_refresh in H. split.
    + clear -H. destruct (isRefreshing (run evs (initial storage))); lia.
    + intros F. rewrite F in H. clear -H. lia.
Qed.

Lemma single_flight_witness :
  refreshExchanges
    (run (zip_with denyAt [1; 0] [unauthorized; unauthorized]) (two_calls stored_pair)) =
  refreshExchanges (two_calls stored_pair) + 1.
Proof.
  refine (proj1 (proj1
    (single_flight [(signed_profile, 1); (signed_profile, 2)] [1; 0]
       [unauthorized; unauthorized] "rt1" (Some fresh_pair)
       [1; 0] [Some fresh_pair; Some unauthorized] (two_calls stored_pair)
       _ _ eq_refl _ eq_refl eq_refl eq_refl eq_refl eq_refl eq_refl eq_refl eq_refl))).
  - discriminate.
  - repeat constructor; discriminate.
  - repeat constructor.
Defined.

(** C1 as stated fails when no refresh token is stored: two concurrent calls
    are denied while no refresh is under way, [refreshToken()] throws before
    posting, and no exchange with /auth/refresh takes place; each call is
    rejected at once. *)
Lemma single_flight_counterexample :
  isRefreshing (two_calls ∅) = false /\
  refreshExchanges
    (run (zip_with denyAt [0; 0] [unauthorized; unauthorized]) (two_calls ∅)) <>
    refreshExchanges (two_calls ∅) + 1 /\
  refreshExchanges
    (run (zip_with denyAt [0; 0] [unauthorized; unauthorized]) (two_calls ∅)) = 0 /\
  settlements
    (trace (run (zip_with denyAt [0; 0] [unauthorized; unauthorized]) (two_calls ∅))) =
    [(1, Rejected (Error "No refresh token available"));
     (2, Rejected (Error "No refresh token available"))].
Proof.
  split; [reflexivity|]. split; [|split; reflexivity].
  vm_compute. discriminate.
Qed.

(** C3: a call denied with a 401 is retried once after the refresh; when the
    retry is denied again, that 401 is handed to the caller and no second
    exchange with /auth/refresh is made.  The guard itself: a 401 answer to a
    request marked [_retry] goes straight to its awaiter. *)
Theorem at_most_one_retry (c : Config) (id : nat) (rt a r' : string)
    (r1 r2 r3 : Response) (st : State) :
  isRefreshing st = false ->
  refreshSubscribers st = [] ->
  inflight st = [mkRequest c (Caller id)] ->
  _retry c = false ->
  url c <> "/auth/refresh" ->
  truthy (getItem "refresh_token" st) = Some rt ->
  status r1 = 401 ->
  validateStatus (status r2) = true ->
  truthy (access_token (data r2)) = Some a ->
  truthy (refresh_token (data r2)) = Some r' ->
  status r3 = 401 ->
  let st' := run [Answer 0 (Some r1); Answer 0 (Some r2); Answer 0 (Some r3)] st in
  let exchange := mkRequest (requestInterceptor (refreshConfig rt) st).1 AutoRefresh in
  let retry :=
    mkRequest (mkConfig (method c) (url c) (body c) (Some ("Bearer " +:+ a)) true)
              (Caller id) in
  (trace st' = trace st ++
     [Sent exchange; Notified (parked (c, id)) (inr a); Sent retry;
      Settled id (Rejected (AxiosError (Some r3)))] /\
   refreshExchanges st' = refreshExchanges st + 1 /\
   isRefreshing st' = false /\
   refreshSubscribers st' = [] /\
   inflight st' = []) /\
  (forall (rq : Request) (r : Response) (s : State),
     _retry (config rq) = true -> status r = 401 ->
     responseInterceptor rq (Some r) s =
       settle (awaiter rq) (Rejected (AxiosError (Some r))) s).
Proof.
  intros Hflag Hsubs Hin Hc Hurl Hrt H1 H2 Ha Hr H3 st' exchange retry.
  split.
  2:{ intros rq r s Hretry Hs.
      rewrite responseInterceptor_passthrough by (rewrite Hretry; apply andb_false_r).
      unfold outcome_of. rewrite validateStatus_401 by (rewrite Hs; reflexivity).
      reflexivity. }
  destruct (concurrent_denials [0] [(c, id)] [r1] rt st)
    as (arrived & P & T1 & F1 & I1 & S1 & L1);
    try assumption; try reflexivity; try discriminate.
  { repeat constructor. exact Hc. }
  { repeat constructor. exact H1. }
  apply Permutation_singleton_r in P. subst arrived.
  cbn zeta in *. fold exchange in T1, I1.
  subst st'. change [Answer 0 (Some r1); Answer 0 (Some r2); Answer 0 (Some r3)]
    with (zip_with denyAt [0] [r1] ++ [Answer 0 (Some r2); Answer 0 (Some r3)]).
  rewrite run_app. set (st1 := run (zip_with denyAt [0] [r1]) st) in *.
  rewrite run_cons, (step_answer_head _ _ _ _ I1).
  rewrite (refresh_answered exchange _ _ eq_refl)
    by (cbn; apply validateStatus_not_401, H2).
  unfold outcome_of, refreshToken_resume. rewrite H2, Ha, Hr. cbn [fst snd].
  set (st2 := setItem _ _ _).
  destruct (refreshChain_succeeded a st2) as (T2 & S2 & F2 & I2 & L2). cbn zeta in *.
  change (refreshSubscribers st2) with (refreshSubscribers st1) in T2, I2.
  rewrite S1 in T2, I2. change (inflight st2) with (@nil Request) in I2.
  cbn [map flat_map app] in T2, I2.
  assert (retryOf a st2 (parked (c, id)) = retry) as Hretry.
  { unfold retryOf, requestInterceptor.
    assert (truthy (getItem "access_token" st2) = Some a) as ->.
    { subst st2. rewrite getItem_setItem, decide_False by discriminate.
      rewrite getItem_setItem, decide_True by reflexivity.
      apply truthy_Some. split; [reflexivity|]. apply truthy_Some in Ha. tauto. }
    reflexivity. }
  rewrite Hretry in T2, I2.
  rewrite run_cons, (step_answer_head _ _ _ _ I2).
  rewrite (retried_call_settles _ id) by reflexivity.
  unfold outcome_of. rewrite validateStatus_401 by (rewrite H3; reflexivity).
  cbn [run foldl].
  assert (trace (emit (Settled id (Rejected (AxiosError (Some r3))))
                   (with_inflight [] (refreshChain wake (inr a) st2))) =
          trace st ++ [Sent exchange; Notified (parked (c, id)) (inr a); Sent retry;
                       Settled id (Rejected (AxiosError (Some r3)))]) as T3.
  { cbn [trace emit with_inflight]. rewrite T2.
    change (trace st2) with (trace st1). rewrite T1, <- !app_assoc. reflexivity. }
  repeat split; try assumption.
  erewrite refreshExchanges_app by exact T3.
  cbn [List.filter is_refresh_exchange config exchange retry url].
  rewrite requestInterceptor_url. cbn [refreshConfig url].
  rewrite bool_decide_eq_true_2 by reflexivity.
  rewrite bool_decide_eq_false_2 by exact Hurl. reflexivity.
Qed.

Lemma at_most_one_retry_witness :
  refreshExchanges
    (run [Answer 0 (Some unauthorized); Answer 0 (Some fresh_pair);
          Answer 0 (Some unauthorized)]
       (run [Call 1 getProfile] (initial stored_pair))) =
  refreshExchanges (run [Call 1 getProfile] (initial stored_pair)) + 1.
Proof.
  refine (proj1 (proj2 (proj1
    (at_most_one_retry signed_profile 1 "rt1" "at2" "rt2"
       unauthorized fresh_pair unauthorized
       (run [Call 1 getProfile] (initial stored_pair))
       eq_refl eq_refl eq_refl eq_refl _ eq_refl eq_refl eq_refl eq_refl eq_refl eq_refl)))).
  discriminate.
Defined.

(** * Further properties of the session coordinator *)

(** ** What a call and a settlement leave alone *)

Lemma call_frame (id : nat) (op : Operation) (st : State) :
  isRefreshing (call id op st) = isRefreshing st /\
  refreshSubscribers (call id op st) = refreshSubscribers st /\
  notifications (trace (call id op st)) = notifications (trace st).
Proof.
  assert (forall c k, isRefreshing (request c k st) = isRefreshing st /\
            refreshSubscribers (request c k st) = refreshSubscribers st /\
            notifications (trace (request c k st)) = notifications (trace st)) as Hreq.
  { intros c k. rewrite request_unfold. cbn. rewrite notifications_app. cbn.
    rewrite app_nil_r. repeat split. }
  assert (forall e, notifications (trace st ++ [Settled id e]) = notifications (trace st))
    as Hset by (intros e; rewrite notifications_app; apply app_nil_r).
  destruct op as [m u b|pid i|pid|u|u|req| |]; cbn [call];
    unfold getLinksByProjectId, regenerateApiKey, getUserUsage, getUserTier,
      getAnalyticsBreakdown, manualRefreshToken, refreshToken_begin, logout;
    try apply Hreq.
  - destruct (truthy pid); [apply Hreq | cbn; rewrite Hset; repeat split].
  - destruct (truthy pid); [apply Hreq | cbn; rewrite Hset; repeat split].
  - destruct (breakdownPayload req); [cbn; rewrite Hset; repeat split | apply Hreq].
  - destruct (truthy _); [apply Hreq | cbn; rewrite Hset; repeat split].
Qed.

Lemma settle_frame (k : Awaiter) (o : Outcome) (st : State) :
  refreshing k = false ->
  isRefreshing (settle k o st) = isRefreshing st /\
  refreshSubscribers (settle k o st) = refreshSubscribers st /\
  inflight (settle k o st) = inflight st /\
  notifications (trace (settle k o st)) = notifications (trace st).
Proof.
  intros Hk. destruct k as [id| |id|id]; [|discriminate| |]; unfold settle, resume.
  - cbn. rewrite notifications_app. cbn. rewrite app_nil_r. repeat split.
  - destruct (refreshToken_resume_frame o st) as (S & T & I & F).
    destruct (refreshToken_resume o st) as [[e|a] st1]; cbn in *;
      rewrite notifications_app, S, T, I, F; cbn; rewrite app_nil_r; repeat split.
  - cbn. rewrite notifications_app. cbn. rewrite app_nil_r. repeat split.
Qed.

(** ** The list is empty whenever the flag is down *)

Lemma list_guarded_answer (rq : Request) (answer : option Response) (st : State) :
  list_guarded st -> list_guarded (responseInterceptor rq answer st).
Proof.
  intros H.
  destruct (is401 answer && negb (_retry (config rq))) eqn:E.
  - apply andb_prop in E as [E1 E2]. apply negb_true_iff in E2.
    destruct answer as [r|]; [|discriminate]. apply Nat.eqb_eq in E1.
    rewrite responseInterceptor_401 by assumption. cbn zeta.
    destruct (isRefreshing st) eqn:F.
    + intros F'. cbn in F'. congruence.
    + destruct (truthy _) as [rt|].
      * intros F'. destruct (outstanding_request (refreshConfig rt) AutoRefresh
                               (with_isRefreshing true st)) as (_ & _ & Fl).
        cbn in F'. rewrite Fl in F'. discriminate.
      * intros _. apply refreshChain_notifies.
  - rewrite responseInterceptor_passthrough by exact E.
    destruct (refreshing (awaiter rq)) eqn:K.
    + destruct (awaiter rq); try discriminate. intros _.
      unfold settle, resume. destruct (refreshToken_resume _ _).
      apply refreshChain_notifies.
    + destruct (settle_frame (awaiter rq) (outcome_of answer) st K) as (F & S & _).
      unfold list_guarded. rewrite F, S. exact H.
Qed.

(** X1: in every run, Pending Callers are registered only while a refresh is
    under way: whenever [isRefreshing] is false the subscriber list is empty. *)
Theorem subscribers_only_while_refreshing (evs : list Event) (storage : gmap string string) :
  isRefreshing (run evs (initial storage)) = false ->
  refreshSubscribers (run evs (initial storage)) = [].
Proof.
  assert (forall st, list_guarded st -> list_guarded (run evs st)) as H.
  { induction evs as [|ev evs IH]; intros st Hst; [exact Hst|].
    rewrite run_cons. apply IH.
    destruct ev as [id op | n answer]; cbn [step].
    - destruct (call_frame id op st) as (F & S & _).
      unfold list_guarded. rewrite F, S. exact Hst.
    - destruct (inflight st !! n) as [rq|]; [|exact Hst].
      apply list_guarded_answer. exact Hst. }
  apply H. intros _. reflexivity.
Qed.

Lemma subscribers_only_while_refreshing_witness :
  refreshSubscribers
    (run [Call 1 getProfile; Answer 0 (Some unauthorized); Answer 0 (Some fresh_pair)]
       (initial stored_pair)) = [].
Proof.
  exact (subscribers_only_while_refreshing
           [Call 1 getProfile; Answer 0 (Some unauthorized); Answer 0 (Some fresh_pair)]
           stored_pair eq_refl).
Defined.

(** ** A parked refresh request is never released *)

Lemma call_outstanding (id : nat) (op : Operation) (st : State) :
  outstanding (call id op st) = outstanding st.
Proof.
  assert (forall c k, refreshing k = false ->
            outstanding (request c k st) = outstanding st) as Hreq.
  { intros c k Hk. destruct (outstanding_request c k st) as (-> & _). rewrite Hk. lia. }
  destruct op as [m u b|pid i|pid|u|u|req| |]; cbn [call];
    unfold getLinksByProjectId, regenerateApiKey, getUserUsage, getUserTier,
      getAnalyticsBreakdown, manualRefreshToken, refreshToken_begin, logout;
    try (apply Hreq; reflexivity).
  - destruct (truthy pid); [apply Hreq|]; reflexivity.
  - destruct (truthy pid); [apply Hreq|]; reflexivity.
  - destruct (breakdownPayload req); [|apply Hreq]; reflexivity.
  - destruct (truthy _); [apply Hreq|]; reflexivity.
Qed.

Lemma hung_step (ev : Event) (st : State) :
  hung st ->
  hung (step st ev) /\
  notifications (trace (step st ev)) = notifications (trace st) /\
  exists later, refreshSubscribers (step st ev) = refreshSubscribers st ++ later.
Proof.
  intros (F & O & P). destruct ev as [id op | n answer]; cbn [step].
  - destruct (call_frame id op st) as (F' & S' & N').
    unfold hung, parkedRefreshes in *. rewrite F', S', N', call_outstanding.
    repeat split; try assumption. exists []. symmetry. apply app_nil_r.
  - destruct (inflight st !! n) as [rq|] eqn:E.
    2:{ repeat split; try assumption. exists []. symmetry. apply app_nil_r. }
    pose proof (filter_delete_length (fun rq => refreshing (awaiter rq)) _ _ _ E) as Hn.
    cbn beta in Hn. fold (outstanding st) in Hn. rewrite O in Hn.
    assert (refreshing (awaiter rq) = false) as K
      by (destruct (refreshing (awaiter rq)); [lia | reflexivity]).
    rewrite K in Hn.
    set (st0 := with_inflight (delete n (inflight st)) st).
    assert (outstanding st0 = 0) as O0 by (unfold outstanding, st0; cbn; lia).
    destruct (is401 answer && negb (_retry (config rq))) eqn:E4.
    + apply andb_prop in E4 as [E1 E2]. apply negb_true_iff in E2.
      destruct answer as [r|]; [|discriminate]. apply Nat.eqb_eq in E1.
      rewrite responseInterceptor_401 by assumption. cbn zeta.
      change (isRefreshing st0) with (isRefreshing st). rewrite F.
      unfold hung, outstanding, parkedRefreshes in *. cbn.
      rewrite List.filter_app, length_app. cbn. rewrite K. cbn.
      repeat split; try assumption; try lia. eexists. reflexivity.
    + rewrite responseInterceptor_passthrough by exact E4.
      destruct (settle_frame (awaiter rq) (outcome_of answer) st0 K) as (F' & S' & I' & N').
      unfold hung, outstanding, parkedRefreshes in *. rewrite F', S', I', N'.
      repeat split; try assumption. exists []. symmetry. apply app_nil_r.
Qed.

Lemma hung_run (evs : list Event) (st : State) :
  hung st ->
  hung (run evs st) /\
  notifications (trace (run evs st)) = notifications (trace st) /\
  exists later, refreshSubscribers (run evs st) = refreshSubscribers st ++ later.
Proof.
  revert st. induction evs as [|ev evs IH]; intros st H.
  - repeat split; try apply H. exists []. symmetry. apply app_nil_r.
  - rewrite run_cons. destruct (hung_step ev st H) as (H1 & N1 & l1 & S1).
    destruct (IH _ H1) as (H2 & N2 & l2 & S2).
    repeat split; try apply H2.
    + rewrite N2. exact N1.
    + exists (l1 ++ l2). rewrite S2, S1, app_assoc. reflexivity.
Qed.

(** C7 (violated when /auth/logout and then /auth/refresh are answered 401):
    with a token pair stored, the 401 answer to the logout request is taken
    by the response interceptor, which parks the logout and starts a
    refresh; the 401 answer to that refresh is parked as well.  The awaited
    request of [logout] never settles, so its [finally] block never runs:
    both tokens stay in the store, [logout] returns nothing, nothing is left
    in flight, and whatever happens later the flag stays up, nobody is
    notified and the logout stays parked. *)
Theorem logout_behind_rejected_refresh_hangs (id : nat) (rt : string)
    (r1 r2 : Response) (st : State) :
  isRefreshing st = false ->
  refreshSubscribers st = [] ->
  inflight st = [] ->
  truthy (getItem "refresh_token" st) = Some rt ->
  status r1 = 401 -> status r2 = 401 ->
  let st' := run [Call id Logout; Answer 0 (Some r1); Answer 0 (Some r2)] st in
  let sentLogout :=
    (requestInterceptor
       (post "/auth/logout"
          (LogoutBody (getItem "access_token" st) (getItem "refresh_token" st))) st).1 in
  let sentRefresh := (requestInterceptor (refreshConfig rt) st).1 in
  let parkedPair :=
    [mkSubscriber (with_retry true sentLogout) (LogoutCall id);
     mkSubscriber (with_retry true sentRefresh) AutoRefresh] in
  localStorage st' = localStorage st /\
  truthy (getItem "refresh_token" st') = Some rt /\
  settlements (trace st') = settlements (trace st) /\
  notifications (trace st') = notifications (trace st) /\
  isRefreshing st' = true /\
  inflight st' = [] /\
  refreshSubscribers st' = parkedPair /\
  (forall (n : nat) (answer : option Response), step st' (Answer n answer) = st') /\
  (forall evs : list Event,
     isRefreshing (run evs st') = true /\
     notifications (trace (run evs st')) = notifications (trace st) /\
     exists later, refreshSubscribers (run evs st') = parkedPair ++ later).
Proof.
  intros F S I T H1 H2. cbn zeta.
  set (sentLogout := (requestInterceptor _ st).1).
  set (sentRefresh := (requestInterceptor (refreshConfig rt) st).1).
  assert (run [Call id Logout; Answer 0 (Some r1); Answer 0 (Some r2)] st =
          subscribeTokenRefresh (mkSubscriber (with_retry true sentRefresh) AutoRefresh)
            (with_inflight []
               (subscribeTokenRefresh
                  (mkSubscriber (with_retry true sentLogout) (LogoutCall id))
                  (emit (Sent (mkRequest sentRefresh AutoRefresh))
                     (with_inflight [mkRequest sentRefresh AutoRefresh]
                        (with_isRefreshing true
                           (with_inflight []
                              (emit (Sent (mkRequest sentLogout (LogoutCall id)))
                                 (with_inflight [mkRequest sentLogout (LogoutCall id)]
                                    st))))))))) as E.
  { unfold run. cbn [foldl].
    change (step st (Call id Logout)) with (logout id st).
    unfold logout. rewrite request_unfold. cbn zeta. fold sentLogout. rewrite I. cbn [app].
    erewrite (step_answer_head _ _ _ (Some r1)) by reflexivity.
    rewrite (responseInterceptor_401 _ r1)
      by (try exact H1; cbn [config]; apply requestInterceptor_retry).
    st_simpl. rewrite F.
    change (getItem "refresh_token" _) with (getItem "refresh_token" st). rewrite T.
    rewrite request_unfold. cbn zeta.
    rewrite (requestInterceptor_storage _ st) by reflexivity. fold sentRefresh.
    erewrite step_answer_head by reflexivity.
    rewrite responseInterceptor_401
      by (try exact H2; cbn [config]; apply requestInterceptor_retry).
    st_simpl. reflexivity. }
  rewrite E. clear E. set (st' := subscribeTokenRefresh _ _).
  assert (refreshSubscribers st' =
          [mkSubscriber (with_retry true sentLogout) (LogoutCall id);
           mkSubscriber (with_retry true sentRefresh) AutoRefresh]) as S'
    by (subst st'; cbn; rewrite S; reflexivity).
  assert (notifications (trace st') = notifications (trace st)) as N'
    by (subst st'; cbn; rewrite !notifications_app; cbn; rewrite !app_nil_r; reflexivity).
  assert (hung st') as Hh.
  { unfold hung, outstanding, parkedRefreshes. rewrite S'. subst st'. cbn.
    repeat split; lia. }
  split; [reflexivity|]. split; [exact T|]. split.
  { subst st'. cbn. rewrite !settlements_app. cbn. rewrite !app_nil_r. reflexivity. }
  split; [exact N'|]. split; [reflexivity|]. split; [reflexivity|].
  split; [exact S'|]. split.
  - intros n answer. unfold step. subst st'. cbn [inflight subscribeTokenRefresh
      with_refreshSubscribers with_inflight]. rewrite lookup_nil. reflexivity.
  - intros evs. destruct (hung_run evs st' Hh) as (H & N & later & L).
    split; [apply H|]. split; [rewrite N; exact N'|].
    exists later. rewrite L, S'. reflexivity.
Qed.

Lemma logout_behind_rejected_refresh_hangs_witness :
  localStorage
    (run [Call 1 Logout; Answer 0 (Some unauthorized); Answer 0 (Some unauthorized)]
       (initial stored_pair)) = stored_pair.
Proof.
  exact (proj1 (logout_behind_rejected_refresh_hangs 1 "rt1" unauthorized unauthorized
                  (initial stored_pair) eq_refl eq_refl eq_refl eq_refl eq_refl eq_refl)).
Defined.

(** X2: once the automatic refresh request has been answered 401 and parked
    among the Pending Callers, nothing that happens later releases it: after
    any further calls and answers [isRefreshing] is still true, no Pending
    Caller has been notified, and every Pending Caller is still in the list
    (those of later 401s behind it). *)
Theorem parked_refresh_is_permanent (st : State) (n : nat) (rq : Request)
    (r : Response) (evs : list Event) :
  single_refresh st ->
  inflight st !! n = Some rq ->
  awaiter rq = AutoRefresh ->
  _retry (config rq) = false ->
  status r = 401 ->
  let st' := run (Answer n (Some r) :: evs) st in
  isRefreshing st' = true /\
  notifications (trace st') = notifications (trace st) /\
  exists later,
    refreshSubscribers st' =
      refreshSubscribers st ++ mkSubscriber (with_retry true (config rq)) AutoRefresh :: later.
Proof.
  intros Hinv E K Hr Hs. cbn zeta. rewrite run_cons.
  pose proof (filter_delete_length (fun rq => refreshing (awaiter rq)) _ _ _ E) as Hn.
  cbn beta in Hn. rewrite K in Hn. cbn [refreshing] in Hn. fold (outstanding st) in Hn.
  unfold single_refresh in Hinv.
  assert (isRefreshing st = true) as F
    by (destruct (isRefreshing st); [reflexivity | lia]).
  rewrite F in Hinv.
  rewrite (step_answer_at _ _ _ _ E).
  rewrite responseInterceptor_401 by assumption. cbn zeta.
  cbn [isRefreshing with_inflight]. rewrite F, K.
  set (st1 := subscribeTokenRefresh _ _).
  assert (hung st1) as H1.
  { unfold hung, outstanding, parkedRefreshes, st1 in *. cbn.
    rewrite List.filter_app, length_app. cbn. repeat split; [exact F | lia | lia]. }
  destruct (hung_run evs st1 H1) as (H2 & N2 & later & S2).
  split; [apply H2|]. split; [exact N2|].
  exists later. rewrite S2. subst st1. cbn. rewrite <- app_assoc. reflexivity.
Qed.

Lemma parked_refresh_is_permanent_witness :
  isRefreshing
    (run [Answer 0 (Some unauthorized); Call 2 getProfile; Answer 0 (Some unauthorized);
          Call 3 Logout]
       (run [Call 1 getProfile; Answer 0 (Some unauthorized)] (initial stored_pair)))
  = true.
Proof.
  refine (proj1 (parked_refresh_is_permanent
    (run [Call 1 getProfile; Answer 0 (Some unauthorized)] (initial stored_pair))
    0 (mkRequest (mkConfig POST "/auth/refresh" (RefreshBody "rt1")
                    (Some "Bearer at1") false) AutoRefresh)
    unauthorized
    [Call 2 getProfile; Answer 0 (Some unauthorized); Call 3 Logout]
    _ eq_refl eq_refl eq_refl eq_refl)).
  unfold single_refresh. vm_compute. lia.
Defined.

(** ** No call is lost and none is settled twice *)

Lemma ledger_request (c : Config) (k : Awaiter) (st : State) :
  ledger (request c k st) ≡ₚ idOf k ++ ledger st.
Proof.
  rewrite request_unfold. unfold ledger, pendingIds, settledIds. cbn.
  rewrite flat_map_app, settlements_app. cbn. rewrite !app_nil_r.
  solve_Permutation.
Qed.

Lemma ledger_settled (id : nat) (o : Outcome) (st : State) :
  ledger (emit (Settled id o) st) ≡ₚ id :: ledger st.
Proof.
  unfold ledger, pendingIds, settledIds. cbn.
  rewrite settlements_app, map_app. cbn. solve_Permutation.
Qed.

Lemma ledger_call (id : nat) (op : Operation) (st : State) :
  ledger (call id op st) ≡ₚ id :: ledger st.
Proof.
  destruct op as [m u b|pid i|pid|u|u|req| |]; cbn [call];
    unfold getLinksByProjectId, regenerateApiKey, getUserUsage, getUserTier,
      getAnalyticsBreakdown, manualRefreshToken, refreshToken_begin, logout;
    try apply (ledger_request _ (Caller id)).
  - destruct (truthy pid); [apply (ledger_request _ (Caller id)) | apply ledger_settled].
  - destruct (truthy pid); [apply (ledger_request _ (Caller id)) | apply ledger_settled].
  - destruct (breakdownPayload req);
      [apply ledger_settled | apply (ledger_request _ (Caller id))].
  - destruct (truthy _); [apply (ledger_request _ (ManualRefresh id))|].
    apply (ledger_settled id _ (clearTokens st)).
  - apply (ledger_request _ (LogoutCall id)).
Qed.

Lemma woken_ids (err : Err) (subs : list RefreshSubscriber) :
  map fst (flat_map (fun sub => woken (sub_awaiter sub) err) subs) =
  flat_map (fun sub => idOf (sub_awaiter sub)) subs.
Proof.
  induction subs as [|s l IH]; cbn [flat_map]; [reflexivity|].
  rewrite map_app, IH. destruct (sub_awaiter s); reflexivity.
Qed.

Lemma retry_ids (token : string) (st : State) (subs : list RefreshSubscriber) :
  flat_map (fun rq => idOf (awaiter rq)) (map (retryOf token st) subs) =
  flat_map (fun sub => idOf (sub_awaiter sub)) subs.
Proof. induction subs as [|s l IH]; cbn; [reflexivity | rewrite IH; reflexivity]. Qed.

Lemma ledger_chain (p : Err + string) (st : State) :
  ledger (refreshChain wake p st) ≡ₚ ledger st.
Proof.
  unfold ledger, pendingIds, settledIds. destruct p as [err|token].
  - destruct (refreshChain_failed err st) as (T & S & _ & I & _). cbn zeta in *.
    rewrite T, S, I, !settlements_app, settlements_notified, settlements_settled.
    cbn [flat_map app]. rewrite app_nil_r, map_app, woken_ids. solve_Permutation.
  - destruct (refreshChain_succeeded token st) as (T & S & _ & I & _). cbn zeta in *.
    rewrite T, S, I, settlements_app, settlements_retried, flat_map_app, retry_ids.
    cbn [flat_map]. rewrite !app_nil_r. reflexivity.
Qed.

Lemma ledger_frame (st st' : State) :
  inflight st' = inflight st -> refreshSubscribers st' = refreshSubscribers st ->
  trace st' = trace st -> ledger st' = ledger st.
Proof. intros I S T. unfold ledger, pendingIds, settledIds. rewrite I, S, T. reflexivity. Qed.

Lemma ledger_settle (k : Awaiter) (o : Outcome) (st : State) :
  ledger (settle k o st) ≡ₚ idOf k ++ ledger st.
Proof.
  destruct (refreshToken_resume_frame o st) as (S & T & I & _).
  destruct k as [id| |id|id]; unfold settle, resume; cbn [idOf app].
  - apply ledger_settled.
  - destruct (refreshToken_resume o st) as [p st1]. cbn [fst snd] in *.
    rewrite ledger_chain. rewrite (ledger_frame st st1) by assumption. reflexivity.
  - destruct (refreshToken_resume o st) as [[e|a] st1]; cbn [fst snd] in *.
    + rewrite (ledger_settled id _ (clearTokens st1)).
      rewrite (ledger_frame st (clearTokens st1)) by assumption. reflexivity.
    + rewrite ledger_settled. rewrite (ledger_frame st st1) by assumption. reflexivity.
  - rewrite (ledger_settled id _ (clearTokens st)). reflexivity.
Qed.

Lemma ledger_subscribe (sub : RefreshSubscriber) (st : State) :
  ledger (subscribeTokenRefresh sub st) ≡ₚ idOf (sub_awaiter sub) ++ ledger st.
Proof.
  unfold ledger, pendingIds, settledIds. cbn. rewrite flat_map_app. cbn.
  rewrite app_nil_r. solve_Permutation.
Qed.

Lemma ledger_answer (rq : Request) (answer : option Response) (st : State) :
  ledger (responseInterceptor rq answer st) ≡ₚ idOf (awaiter rq) ++ ledger st.
Proof.
  destruct (is401 answer && negb (_retry (config rq))) eqn:E.
  - apply andb_prop in E as [E1 E2]. apply negb_true_iff in E2.
    destruct answer as [r|]; [|discriminate]. apply Nat.eqb_eq in E1.
    rewrite responseInterceptor_401 by assumption. cbn zeta.
    destruct (isRefreshing st).
    + apply ledger_subscribe.
    + destruct (truthy _) as [rt|].
      * rewrite ledger_subscribe. cbn [sub_awaiter].
        rewrite (ledger_request _ AutoRefresh). reflexivity.
      * rewrite ledger_chain, ledger_subscribe. reflexivity.
  - rewrite responseInterceptor_passthrough by exact E. apply ledger_settle.
Qed.

Lemma ledger_step (ev : Event) (st : State) :
  ledger (step st ev) ≡ₚ callIds [ev] ++ ledger st.
Proof.
  destruct ev as [id op | n answer]; cbn [step callIds omap app].
  - apply ledger_call.
  - destruct (inflight st !! n) as [rq|] eqn:E; [|reflexivity].
    rewrite ledger_answer. unfold ledger, pendingIds, settledIds. cbn.
    assert (flat_map (fun rq => idOf (awaiter rq)) (inflight st) ≡ₚ
            idOf (awaiter rq) ++
            flat_map (fun rq => idOf (awaiter rq)) (delete n (inflight st))) as ->
      by (rewrite (delete_Permutation _ _ _ E) at 1; reflexivity).
    solve_Permutation.
Qed.

(** X3: in every run, each call the application has made is at any moment
    either pending (its request in flight or parked) or settled, and never
    both or twice: the pending and the settled calls together are exactly the
    calls made.  When the application numbers its calls distinctly, no call
    is settled twice and no settled call has a request left. *)
Theorem calls_are_conserved (evs : list Event) (storage : gmap string string) :
  let st := run evs (initial storage) in
  pendingIds st ++ settledIds st ≡ₚ callIds evs /\
  (NoDup (callIds evs) ->
   NoDup (settledIds st) /\
   forall id, id ∈ settledIds st -> id ∉ pendingIds st).
Proof.
  cbn zeta.
  assert (forall st, ledger (run evs st) ≡ₚ callIds evs ++ ledger st) as H.
  { induction evs as [|ev evs IH]; intros st; [reflexivity|].
    rewrite run_cons, IH, ledger_step.
    change (ev :: evs) with ([ev] ++ evs). unfold callIds at 3.
    rewrite omap_app. fold (callIds [ev]) (callIds evs).
    solve_Permutation. }
  specialize (H (initial storage)).
  change (ledger (initial storage)) with (@nil nat) in H. rewrite app_nil_r in H.
  split; [exact H|].
  intros Hnd. rewrite <- H in Hnd. unfold ledger in Hnd.
  apply NoDup_app in Hnd as (_ & Hdisj & Hs).
  split; [exact Hs|]. intros id Hid Hp. exact (Hdisj id Hp Hid).
Qed.

Lemma calls_are_conserved_witness :
  NoDup (settledIds
           (run [Call 1 getProfile; Call 2 Logout; Answer 0 (Some unauthorized);
                 Answer 1 (Some fresh_pair); Answer 0 (Some fresh_pair)]
              (initial stored_pair))).
Proof.
  refine (proj1 (proj2 (calls_are_conserved
    [Call 1 getProfile; Call 2 Logout; Answer 0 (Some unauthorized);
     Answer 1 (Some fresh_pair); Answer 0 (Some fresh_pair)] stored_pair) _)).
  apply (bool_decide_unpack _). vm_compute. exact I.
Defined.

(** ** Login, token validation *)

Lemma denied_without_token (rq : Request) (r : Response) (st : State) :
  isRefreshing st = false ->
  refreshSubscribers st = [] ->
  truthy (getItem "refresh_token" st) = None ->
  _retry (config rq) = false ->
  status r = 401 ->
  responseInterceptor rq (Some r) st =
  wake (awaiter rq) (Rejected missing_token)
    (with_isRefreshing false
       (with_refreshSubscribers []
          (emit (Notified (mkSubscriber (with_retry true (config rq)) (awaiter rq))
                   (inl missing_token))
             (clearTokens st)))).
Proof.
  intros F S T Hr Hs. rewrite responseInterceptor_401 by assumption. cbn zeta.
  rewrite F, T.
  erewrite refreshChain_failed_alone by (cbn; rewrite S; reflexivity).
  reflexivity.
Qed.

Lemma getItem_other_clearTokens (key : string) (st : State) :
  key <> "access_token" -> key <> "refresh_token" ->
  getItem key (clearTokens st) = getItem key st.
Proof.
  intros Ha Hr. rewrite getItem_clearTokens.
  destruct (decide _) as [[?|?]|_]; [contradiction | contradiction | reflexivity].
Qed.

(** X4: with no refresh token stored and no refresh under way, a call that is
    answered 401 is rejected at once with the error "No refresh token
    available" (the 401 itself is not handed to the caller), without any
    exchange with /auth/refresh; the access token is removed from the store,
    other keys are untouched, and the flag and the list end as they were. *)
Theorem denied_without_refresh_token (st : State) (n id : nat) (rq : Request)
    (r : Response) :
  isRefreshing st = false ->
  refreshSubscribers st = [] ->
  truthy (getItem "refresh_token" st) = None ->
  inflight st !! n = Some rq ->
  awaiter rq = Caller id ->
  _retry (config rq) = false ->
  status r = 401 ->
  let st' := step st (Answer n (Some r)) in
  settlements (trace st') = settlements (trace st) ++ [(id, Rejected missing_token)] /\
  tokens_cleared st' /\
  (forall key, key <> "access_token" -> key <> "refresh_token" ->
     getItem key st' = getItem key st) /\
  isRefreshing st' = false /\
  refreshSubscribers st' = [] /\
  inflight st' = delete n (inflight st) /\
  refreshExchanges st' = refreshExchanges st.
Proof.
  intros F S T E K Hr Hs. cbn zeta.
  rewrite (step_answer_at _ _ _ _ E), denied_without_token by assumption.
  rewrite K. unfold wake, resume.
  repeat split.
  - cbn. rewrite !settlements_app. cbn. rewrite app_nil_r. reflexivity.
  - apply (getItem_clearTokens "access_token").
  - apply (getItem_clearTokens "refresh_token").
  - intros key Ha Hb. apply (getItem_other_clearTokens key st Ha Hb).
  - unfold refreshExchanges. cbn. rewrite !List.filter_app. cbn.
    rewrite !app_nil_r. reflexivity.
Qed.

Lemma denied_without_refresh_token_witness :
  settlements
    (trace (step (run [Call 4 (GetUserUsage (Some "u1"))] (initial ∅))
              (Answer 0 (Some unauthorized)))) =
  settlements (trace (run [Call 4 (GetUserUsage (Some "u1"))] (initial ∅))) ++
    [(4, Rejected missing_token)].
Proof.
  exact (proj1 (denied_without_refresh_token
    (run [Call 4 (GetUserUsage (Some "u1"))] (initial ∅)) 0 4
    (mkRequest (post "/users/usage" (UserIdBody (Some "u1"))) (Caller 4))
    unauthorized eq_refl eq_refl eq_refl eq_refl eq_refl eq_refl eq_refl)).
Defined.

(** X5: a login that the server answers 401, when no refresh token is stored
    and no refresh is under way, is rejected with "No refresh token
    available" instead of the server's answer: the gatekeeper treats the 401
    as an expired session.  [login] rethrows that error and stores nothing;
    a stale access token is removed. *)
Theorem login_denied_reports_missing_token (id : nat) (credentials : string)
    (r : Response) (st : State) :
  isRefreshing st = false ->
  refreshSubscribers st = [] ->
  truthy (getItem "refresh_token" st) = None ->
  status r = 401 ->
  let st1 := login id credentials st in
  let st2 := step st1 (Answer (length (inflight st)) (Some r)) in
  settlements (trace st2) = settlements (trace st) ++ [(id, Rejected missing_token)] /\
  login_resume (inl missing_token) st2 = (inl missing_token, st2) /\
  tokens_cleared st2 /\
  inflight st2 = inflight st /\
  refreshExchanges st2 = refreshExchanges st.
Proof.
  intros F S T Hs. cbn zeta. unfold login. rewrite request_unfold. cbn zeta.
  set (rq := mkRequest _ _).
  erewrite step_answer_last by reflexivity.
  rewrite denied_without_token;
    [| exact F | exact S | exact T | apply requestInterceptor_retry | exact Hs].
  cbn [awaiter rq]. unfold wake, resume.
  repeat split.
  - cbn. rewrite !settlements_app. cbn. rewrite !app_nil_r. reflexivity.
  - apply (getItem_clearTokens "access_token").
  - apply (getItem_clearTokens "refresh_token").
  - unfold refreshExchanges. cbn. rewrite !List.filter_app. cbn.
    rewrite requestInterceptor_url. cbn. rewrite !app_nil_r. reflexivity.
Qed.

Lemma login_denied_reports_missing_token_witness :
  settlements
    (trace (step (login 1 "{email, password}" (initial ∅)) (Answer 0 (Some unauthorized))))
  = [(1, Rejected missing_token)].
Proof.
  exact (proj1 (login_denied_reports_missing_token 1 "{email, password}" unauthorized
                  (initial ∅) eq_refl eq_refl eq_refl eq_refl)).
Defined.

(** X6: [validateTokens] never rejects.  From a state with no refresh under
    way, when the answer to its profile request is not a 401, or is a 401
    while no refresh token is stored, it returns true exactly when the answer
    is a 2xx response; it leaves the store alone unless the answer is that
    401, in which case both tokens are removed. *)
Theorem validateTokens_reports (id : nat) (answer : option Response) (st : State) :
  isRefreshing st = false ->
  refreshSubscribers st = [] ->
  (is401 answer = true -> truthy (getItem "refresh_token" st) = None) ->
  let st' := run [Call id getProfile; Answer (length (inflight st)) answer] st in
  exists o : Outcome,
    settlements (trace st') = settlements (trace st) ++ [(id, o)] /\
    validateTokens_resume o = is2xx answer /\
    (if is401 answer then tokens_cleared st' else localStorage st' = localStorage st) /\
    inflight st' = inflight st.
Proof.
  intros F S T. cbn zeta. unfold run. cbn [foldl step call getProfile].
  rewrite request_unfold. cbn zeta. set (rq := mkRequest _ _).
  fold (step (emit (Sent rq) (with_inflight (inflight st ++ [rq]) st))
          (Answer (length (inflight st)) answer)).
  erewrite step_answer_last by reflexivity.
  destruct (is401 answer) eqn:E.
  - destruct answer as [r|]; [|discriminate]. cbn in E.
    rewrite denied_without_token;
      [| exact F | exact S | exact (T eq_refl) | apply requestInterceptor_retry
       | apply Nat.eqb_eq, E].
    cbn [awaiter rq]. unfold wake, resume.
    exists (Rejected missing_token). repeat split.
    + cbn. rewrite !settlements_app. cbn. rewrite !app_nil_r. reflexivity.
    + cbn. rewrite (validateStatus_401 _ E). reflexivity.
    + apply (getItem_clearTokens "access_token").
    + apply (getItem_clearTokens "refresh_token").
  - rewrite responseInterceptor_passthrough by (rewrite E; reflexivity).
    cbn [awaiter rq]. unfold settle, resume.
    exists (outcome_of answer). repeat split.
    + cbn. rewrite !settlements_app. cbn. rewrite !app_nil_r. reflexivity.
    + destruct answer as [r|]; cbn; [|reflexivity].
      destruct (validateStatus (status r)); reflexivity.
Qed.

Lemma validateTokens_reports_witness :
  exists o : Outcome,
    settlements (trace (run [Call 1 getProfile; Answer 0 None] (initial stored_pair))) =
      [(1, o)] /\
    validateTokens_resume o = false.
Proof.
  destruct (validateTokens_reports 1 None (initial stored_pair) eq_refl eq_refl
              (fun H => False_ind _ (Bool.diff_false_true H)))
    as (o & H1 & H2 & _).
  exists o. split; [exact H1 | exact H2].
Defined.

Lemma lookup_map_Some {A B} (f : A -> B) (l : list A) (n : nat) (x : A) :
  l !! n = Some x -> map f l !! n = Some (f x).
Proof.
  revert n. induction l as [|y l IH]; intros n H; [discriminate|].
  destruct n as [|n]; [injection H as ->; reflexivity | exact (IH n H)].
Qed.

Lemma retryOf_with_token (a : string) (st : State) (x : Config * nat) :
  truthy (getItem "access_token" st) = Some a ->
  retryOf a st (parked x) = retryWith a x.
Proof. intros H. unfold retryOf, requestInterceptor. rewrite H. reflexivity. Qed.

(** X7: after N concurrent calls have been denied and the refresh has been
    answered with a new token pair, the store holds that pair and the
    requests in flight are exactly the N retries: each has the method, url
    and body of the call it retries, carries [Bearer <new access token>] and
    is marked [_retry]; whatever a retry is answered with, also a second
    401, is handed to its caller as it is. *)
Theorem retries_carry_new_token (calls : list (Config * nat)) (arrival : list nat)
    (denials : list Response) (rt a r' : string) (r2 : Response) (st : State) :
  calls <> [] ->
  Forall (fun x => _retry x.1 = false) calls ->
  draining (length calls) arrival = true ->
  Forall (fun r => status r = 401) denials ->
  length denials = length calls ->
  isRefreshing st = false ->
  refreshSubscribers st = [] ->
  inflight st = map callRequest calls ->
  truthy (getItem "refresh_token" st) = Some rt ->
  validateStatus (status r2) = true ->
  truthy (access_token (data r2)) = Some a ->
  truthy (refresh_token (data r2)) = Some r' ->
  let st2 := run (zip_with denyAt arrival denials ++ [Answer 0 (Some r2)]) st in
  exists arrived : list (Config * nat),
    arrived ≡ₚ calls /\
    inflight st2 = map (retryWith a) arrived /\
    getItem "access_token" st2 = Some a /\
    getItem "refresh_token" st2 = Some r' /\
    isRefreshing st2 = false /\
    refreshSubscribers st2 = [] /\
    (forall (n : nat) (x : Config * nat) (answer : option Response),
       arrived !! n = Some x ->
       step st2 (Answer n answer) =
       emit (Settled x.2 (outcome_of answer))
            (with_inflight (delete n (inflight st2)) st2)).
Proof.
  intros Hne Hc Ho Hd Hlen F S Hin Hrt Hv Ha Hr. cbn zeta. rewrite run_app.
  destruct (concurrent_denials arrival calls denials rt st
              Hne Ho Hc Hd Hlen F S Hin Hrt)
    as (arrived & P & T1 & F1 & I1 & S1 & L1).
  cbn zeta in *. set (st1 := run (zip_with denyAt arrival denials) st) in *.
  set (exchange := mkRequest _ AutoRefresh) in *.
  cbn [run foldl]. rewrite (step_answer_head _ _ _ _ I1).
  rewrite (refresh_answered exchange _ _ eq_refl)
    by (cbn; apply validateStatus_not_401, Hv).
  unfold outcome_of, refreshToken_resume. rewrite Hv, Ha, Hr. cbn [fst snd].
  set (st1' := setItem _ _ _).
  assert (truthy (getItem "access_token" st1') = Some a) as Hat.
  { subst st1'. rewrite getItem_setItem, decide_False by discriminate.
    rewrite getItem_setItem, decide_True by reflexivity.
    apply truthy_Some. split; [reflexivity|]. apply truthy_Some in Ha. tauto. }
  destruct (refreshChain_succeeded a st1') as (T2 & S2 & F2 & I2 & L2). cbn zeta in *.
  change (refreshSubscribers st1') with (refreshSubscribers st1) in I2.
  rewrite S1 in I2. change (inflight st1') with (@nil Request) in I2.
  cbn [app] in I2. rewrite List.map_map in I2.
  rewrite (List.map_ext _ (retryWith a)) in I2
    by (intros x; apply retryOf_with_token, Hat).
  exists arrived. split; [exact P|]. split; [exact I2|].
  split; [|split; [|split; [exact F2|split; [exact S2|]]]].
  - unfold getItem. rewrite L2. subst st1'.
    change (getItem "access_token"
              (setItem "refresh_token" r' (setItem "access_token" a (with_inflight [] st1)))
            = Some a).
    rewrite getItem_setItem, decide_False by discriminate.
    rewrite getItem_setItem, decide_True by reflexivity. reflexivity.
  - unfold getItem. rewrite L2. subst st1'.
    change (getItem "refresh_token"
              (setItem "refresh_token" r' (setItem "access_token" a (with_inflight [] st1)))
            = Some r').
    rewrite getItem_setItem, decide_True by reflexivity. reflexivity.
  - intros n x answer Hx.
    assert (inflight (refreshChain wake (inr a) st1') !! n = Some (retryWith a x)) as E
      by (rewrite I2; apply lookup_map_Some, Hx).
    rewrite (step_answer_at _ _ _ _ E).
    apply (retried_call_settles (retryWith a x) x.2); reflexivity.
Qed.

Lemma retries_carry_new_token_witness :
  exists arrived : list (Config * nat),
    arrived ≡ₚ [(signed_profile, 1); (signed_profile, 2)] /\
    inflight
      (run (zip_with denyAt [1; 0] [unauthorized; unauthorized] ++
            [Answer 0 (Some fresh_pair)]) (two_calls stored_pair)) =
    map (retryWith "at2") arrived.
Proof.
  destruct (retries_carry_new_token [(signed_profile, 1); (signed_profile, 2)] [1; 0]
              [unauthorized; unauthorized] "rt1" "at2" "rt2" fresh_pair
              (two_calls stored_pair))
    as (arrived & P & I & _); try reflexivity.
  - discriminate.
  - repeat constructor.
  - repeat constructor.
  - exists arrived. split; [exact P | exact I].
Defined.

(** ** Manual refresh, login and logout *)

Lemma refreshToken_resume_accepted (answer : option Response) (st : State) :
  refreshToken_resume (outcome_of answer) st =
  match accepted answer with
  | Some (a, r') => (inr a, setItem "refresh_token" r' (setItem "access_token" a st))
  | None => ((refreshToken_resume (outcome_of answer) st).1, st)
  end.
Proof.
  unfold accepted, outcome_of, refreshToken_resume.
  destruct answer as [r|]; [|reflexivity].
  destruct (validateStatus (status r)); [|reflexivity].
  destruct (truthy (access_token (data r))), (truthy (refresh_token (data r)));
    reflexivity.
Qed.

Lemma refreshToken_resume_refused (answer : option Response) (st : State) :
  accepted answer = None ->
  exists e : Err, refreshToken_resume (outcome_of answer) st = (inl e, st).
Proof.
  unfold accepted, outcome_of, refreshToken_resume.
  destruct answer as [r|]; [|eexists; reflexivity].
  destruct (validateStatus (status r)); [|eexists; reflexivity].
  destruct (truthy (access_token (data r))), (truthy (refresh_token (data r)));
    try discriminate; eexists; reflexivity.
Qed.

(** X8: [manualRefreshToken] never rejects.  With no refresh token stored it
    returns false at once, sends nothing and removes a stored access token.
    Otherwise it posts to /auth/refresh, and when the answer is not a 401 it
    returns true exactly when the answer is a 2xx response carrying two
    non-empty tokens, which then are the stored pair; on any other such
    answer, a network failure included, it returns false and removes both
    tokens. *)
Theorem manual_refresh_result (id : nat) (st : State) :
  (truthy (getItem "refresh_token" st) = None ->
   manualRefreshToken id st =
     emit (Settled id (Resolved (Flag false))) (clearTokens st)) /\
  (forall (rt : string) (answer : option Response),
     truthy (getItem "refresh_token" st) = Some rt ->
     is401 answer = false ->
     let st' := run [Call id ManualRefreshToken;
                     Answer (length (inflight st)) answer] st in
     settlements (trace st') =
       settlements (trace st) ++ [(id, Resolved (Flag (bool_decide (is_Some (accepted answer)))))] /\
     match accepted answer with
     | Some (a, r') =>
         getItem "access_token" st' = Some a /\ getItem "refresh_token" st' = Some r'
     | None => tokens_cleared st'
     end /\
     refreshExchanges st' = refreshExchanges st + 1 /\
     inflight st' = inflight st).
Proof.
  split.
  - intros T. unfold manualRefreshToken, refreshToken_begin. rewrite T. reflexivity.
  - intros rt answer T E. cbn zeta. unfold run. cbn [foldl step call].
    unfold manualRefreshToken, refreshToken_begin. rewrite T.
    rewrite request_unfold. cbn zeta. set (rq := mkRequest _ _).
    fold (step (emit (Sent rq) (with_inflight (inflight st ++ [rq]) st))
            (Answer (length (inflight st)) answer)).
    erewrite step_answer_last by reflexivity.
    rewrite responseInterceptor_passthrough by (rewrite E; reflexivity).
    cbn [awaiter rq]. unfold settle, resume.
    assert (forall s l, refreshExchanges s = refreshExchanges st ->
              trace s = trace st -> 
              List.filter is_refresh_exchange (l : list Effect) = [] ->
              length (List.filter is_refresh_exchange ((trace s ++ [Sent rq]) ++ l)) =
              refreshExchanges st + 1) as Hex.
    { intros s l _ Hs Hl. rewrite Hs, !List.filter_app, Hl, app_nil_r, length_app.
      cbn [List.filter is_refresh_exchange rq config].
      rewrite requestInterceptor_url. reflexivity. }
    destruct (accepted answer) as [[a r']|] eqn:A.
    + rewrite refreshToken_resume_accepted, A. cbn. rewrite !settlements_app. cbn.
      rewrite app_nil_r. repeat split.
      * change (getItem "access_token"
                  (setItem "refresh_token" r' (setItem "access_token" a st)) = Some a).
        rewrite getItem_setItem, decide_False by discriminate.
        rewrite getItem_setItem, decide_True by reflexivity. reflexivity.
      * change (getItem "refresh_token"
                  (setItem "refresh_token" r' (setItem "access_token" a st)) = Some r').
        rewrite getItem_setItem, decide_True by reflexivity. reflexivity.
      * unfold refreshExchanges at 1. cbn. apply (Hex st); reflexivity.
    + destruct (refreshToken_resume_refused answer
                  (with_inflight (inflight st)
                     (emit (Sent rq) (with_inflight (inflight st ++ [rq]) st))) A)
        as [e ->].
      cbn. rewrite !settlements_app. cbn. rewrite app_nil_r. repeat split.
      * apply (getItem_clearTokens "access_token").
      * apply (getItem_clearTokens "refresh_token").
      * unfold refreshExchanges at 1. cbn. apply (Hex st); reflexivity.
Qed.

Lemma manual_refresh_result_witness :
  settlements
    (trace (run [Call 1 ManualRefreshToken; Answer 0 None] (initial stored_pair))) =
  [(1, Resolved (Flag false))].
Proof.
  exact (proj1 (proj2 (manual_refresh_result 1 (initial stored_pair))
                  "rt1" None eq_refl eq_refl)).
Defined.

(** X9: the requests to /auth/refresh and /auth/logout ask for no
    Authorization header, yet they go through the request interceptor like
    any other: with a non-empty access token stored, both are sent with
    [Bearer <that token>].  The refresh request carries the stored refresh
    token, the logout request both stored tokens. *)
Theorem refresh_and_logout_are_signed (token : string) (id : nat) (st : State) :
  truthy (getItem "access_token" st) = Some token ->
  (forall (rt : string) (k : Awaiter),
     truthy (getItem "refresh_token" st) = Some rt ->
     trace (refreshToken_begin k st).2 = trace st ++
       [Sent (mkRequest (mkConfig POST "/auth/refresh" (RefreshBody rt)
                           (Some ("Bearer " +:+ token)) false) k)]) /\
  trace (logout id st) = trace st ++
    [Sent (mkRequest
             (mkConfig POST "/auth/logout"
                (LogoutBody (getItem "access_token" st) (getItem "refresh_token" st))
                (Some ("Bearer " +:+ token)) false)
             (LogoutCall id))].
Proof.
  intros H. split.
  - intros rt k T. unfold refreshToken_begin. rewrite T. cbn [snd].
    unfold request, requestInterceptor. rewrite H. reflexivity.
  - unfold logout, request, requestInterceptor. rewrite H. reflexivity.
Qed.

Lemma refresh_and_logout_are_signed_witness :
  trace (logout 1 (initial stored_pair)) =
    [Sent (mkRequest
             (mkConfig POST "/auth/logout" (LogoutBody (Some "at1") (Some "rt1"))
                (Some "Bearer at1") false)
             (LogoutCall 1))].
Proof.
  exact (proj2 (refresh_and_logout_are_signed "at1" 1 (initial stored_pair) eq_refl)).
Defined.

Lemma getItem_storeTokens (key : string) (t : RowtTokens) (st : State) :
  getItem key (storeTokens t st) =
  if decide (key = "refresh_token") then Some (t_refresh_token t)
  else if decide (key = "access_token") then Some (t_access_token t)
  else getItem key st.
Proof.
  unfold storeTokens. rewrite getItem_setItem.
  destruct (decide ("refresh_token" = key)) as [<-|Hr].
  - rewrite decide_True by reflexivity. reflexivity.
  - rewrite decide_False by congruence. rewrite getItem_setItem.
    destruct (decide ("access_token" = key)) as [<-|Ha].
    + rewrite decide_True by reflexivity. reflexivity.
    + rewrite decide_False by congruence. reflexivity.
Qed.



(** X11: logging out after a login leaves the store as it was before the
    login, except that both token keys are absent: whatever the logout
    request settles with, the two tokens are removed and every other key
    keeps the value it had. *)
Theorem login_then_logout (d : RowtLoginResponseDTO) (id : nat) (o : Outcome)
    (st : State) :
  let st' := settle (LogoutCall id) o (login_resume (inr d) st).2 in
  tokens_cleared st' /\
  (forall key, key <> "access_token" -> key <> "refresh_token" ->
     getItem key st' = getItem key st) /\
  (tokens_cleared st -> localStorage st' = localStorage st).
Proof.
  cbn zeta. cbn [login_resume snd]. unfold settle, resume.
  change (getItem ?k (emit _ ?s)) with (getItem k s).
  split; [apply tokens_cleared_clearTokens|]. split.
  - intros key Ha Hr.
    change (getItem key (clearTokens (storeTokens (tokens d) st)) = getItem key st).
    rewrite getItem_other_clearTokens by assumption.
    rewrite getItem_storeTokens, !decide_False by assumption. reflexivity.
  - intros [Ha Hr]. apply map_eq. intros key.
    change (getItem key (clearTokens (storeTokens (tokens d) st)) = getItem key st).
    rewrite getItem_clearTokens.
    destruct (decide _) as [[->| ->]|Hn].
    + symmetry. exact Ha.
    + symmetry. exact Hr.
    + rewrite getItem_storeTokens, !decide_False by tauto. reflexivity.
Qed.

Lemma login_then_logout_witness :
  localStorage
    (settle (LogoutCall 2) (Rejected (AxiosError None))
       (login_resume (inr (mkLoginResponse (mkTokens "at9" "rt9") "ann")) (initial ∅)).2)
  = ∅.
Proof.
  refine (proj2 (proj2 (login_then_logout
    (mkLoginResponse (mkTokens "at9" "rt9") "ann") 2 (Rejected (AxiosError None))
    (initial ∅))) _).
  split; reflexivity.
Defined.

(** ** API Surface: the other argument checks and payloads *)

Lemma sent_once (c : Config) (k : Awaiter) (st : State) :
  exists rq : Request,
    request c k st = emit (Sent rq) (with_inflight (inflight st ++ [rq]) st) /\
    method (config rq) = method c /\ url (config rq) = url c /\
    body (config rq) = body c /\ awaiter rq = k.
Proof.
  rewrite request_unfold. cbn zeta. eexists. split; [reflexivity|]. cbn [config awaiter].
  rewrite requestInterceptor_url, requestInterceptor_body.
  unfold requestInterceptor. destruct (truthy _); repeat split.
Qed.

(** X12: [getProjectById] with a missing or empty projectId rejects with
    "Missing projectId" and sends nothing.  Otherwise it posts once to
    /projects/getById the id and the options: each property the caller gave
    (even with the value undefined, which removes the default), and for each
    property not given the default: no links, no interactions, the seven
    days (604800000 ms) before the clock reading as start date and the clock
    reading as end date; [getPreviousPeriod] has no default. *)
Theorem getProjectById_checks_and_defaults
    (stringify : string -> RowtGetProjectOptions -> string) (now1 now2 : Z)
    (id : nat) (pid : option string) (options : option RowtGetProjectOptions)
    (st : State) :
  (truthy pid = None ->
   getProjectById stringify now1 now2 id pid options st =
     emit (Settled id (Rejected (Error "Missing projectId"))) st) /\
  (forall p : string, truthy pid = Some p ->
   exists (rq : Request) (merged : RowtGetProjectOptions),
     getProjectById stringify now1 now2 id pid options st =
       emit (Sent rq) (with_inflight (inflight st ++ [rq]) st) /\
     method (config rq) = POST /\ url (config rq) = "/projects/getById" /\
     body (config rq) = Json (stringify p merged) /\
     (options = None ->
      merged = mkOptions (Present (Some false)) (Present (Some false))
                 (Present (Some (ValidDate (now1 - 604800000))))
                 (Present (Some (ValidDate now2))) Absent) /\
     (forall o, options = Some o ->
        getPreviousPeriod merged = getPreviousPeriod o /\
        (forall v, includeLinks o = Present v -> includeLinks merged = Present v) /\
        (includeLinks o = Absent -> includeLinks merged = Present (Some false)) /\
        (forall v, includeInteractions o = Present v ->
           includeInteractions merged = Present v) /\
        (includeInteractions o = Absent ->
           includeInteractions merged = Present (Some false)) /\
        (forall v, o_startDate o = Present v -> o_startDate merged = Present v) /\
        (o_startDate o = Absent ->
           o_startDate merged = Present (Some (ValidDate (now1 - 604800000)))) /\
        (forall v, o_endDate o = Present v -> o_endDate merged = Present v) /\
        (o_endDate o = Absent -> o_endDate merged = Present (Some (ValidDate now2))))).
Proof.
  split.
  - intros H. unfold getProjectById. rewrite H. reflexivity.
  - intros p H. unfold getProjectById. rewrite H.
    destruct (sent_once
                (post "/projects/getById"
                   (Json (stringify p (mergedOptions (defaultOptions now1 now2) options))))
                (Caller id) st) as (rq & E & M & U & B & _).
    exists rq, (mergedOptions (defaultOptions now1 now2) options).
    split; [exact E|]. split; [exact M|]. split; [exact U|]. split; [exact B|].
    split.
    + intros ->. reflexivity.
    + intros o ->. cbn.
      destruct o as [l i s e g]; cbn.
      split; [destruct g; reflexivity|].
      repeat split; try (intros v ->; reflexivity); intros ->; reflexivity.
Qed.

Lemma getProjectById_checks_and_defaults_witness :
  getProjectById (fun p _ => p) 1700000000000 1700000000000 1 (Some EmptyString) None
    (initial stored_pair) =
  emit (Settled 1 (Rejected (Error "Missing projectId"))) (initial stored_pair).
Proof.
  exact (proj1 (getProjectById_checks_and_defaults (fun p _ => p)
                  1700000000000 1700000000000 1 (Some EmptyString) None
                  (initial stored_pair)) eq_refl).
Defined.

Lemma appendFilter_all (params : list (string * ParamValue))
    (entries : list (string * FilterValue)) :
  foldl appendFilter params entries =
  params ++ omap (fun kv => (fun v => (kv.1, v)) <$> defined kv.2) entries.
Proof.
  revert params. induction entries as [|[key value] entries IH]; intros params.
  - cbn. symmetry. apply app_nil_r.
  - cbn [foldl]. rewrite IH. unfold appendFilter. cbn [fst snd omap].
    destruct value; cbn; rewrite <- ?app_assoc; reflexivity.
Qed.

(** X13: [getAnalytics] rejects and sends nothing when projectId is missing
    or empty ("Missing projectId") or a date is invalid.  Otherwise it sends
    exactly one GET to /analytics whose query holds projectId, startDate and
    endDate followed by the filters in their order, each filter whose value
    is neither undefined nor null exactly once (an empty string is sent) and
    no other. *)
Theorem getAnalytics_query (toString : list (string * ParamValue) -> string)
    (id : nat) (pid : option string) (startDate endDate : JsDate)
    (filters : option (list (string * FilterValue))) (st : State) :
  (truthy pid = None ->
   getAnalytics toString id pid startDate endDate filters st =
     emit (Settled id (Rejected (Error "Missing projectId"))) st) /\
  (startDate = InvalidDate \/ endDate = InvalidDate ->
   fails_fast id st (getAnalytics toString id pid startDate endDate filters st)) /\
  (forall (p : string) (s e : Z),
     truthy pid = Some p -> startDate = ValidDate s -> endDate = ValidDate e ->
     exists rq : Request,
       getAnalytics toString id pid startDate endDate filters st =
         emit (Sent rq) (with_inflight (inflight st ++ [rq]) st) /\
       method (config rq) = GET /\
       url (config rq) = "/analytics?" +:+ toString
         ([("projectId", PText p); ("startDate", PDate s); ("endDate", PDate e)] ++
          omap (fun kv => (fun v => (kv.1, v)) <$> defined kv.2) (default [] filters))).
Proof.
  split; [|split].
  - intros H. unfold getAnalytics, analyticsParams. rewrite H. reflexivity.
  - intros H. unfold fails_fast, getAnalytics, analyticsParams.
    destruct (truthy pid); [|eexists; reflexivity].
    destruct H as [-> | ->]; cbn.
    + eexists; reflexivity.
    + destruct (toISOString startDate); eexists; reflexivity.
  - intros p s e H -> ->. unfold getAnalytics, analyticsParams. rewrite H.
    cbn [toISOString].
    set (params := match filters with Some _ => _ | None => _ end).
    assert (params = [("projectId", PText p); ("startDate", PDate s); ("endDate", PDate e)] ++
              omap (fun kv => (fun v => (kv.1, v)) <$> defined kv.2) (default [] filters))
      as ->.
    { subst params. destruct filters as [entries|]; [apply appendFilter_all|reflexivity]. }
    destruct (sent_once (mkConfig GET ("/analytics?" +:+ toString
                 ([("projectId", PText p); ("startDate", PDate s); ("endDate", PDate e)] ++
                  omap (fun kv => (fun v => (kv.1, v)) <$> defined kv.2) (default [] filters)))
                 NoBody None false) (Caller id) st) as (rq & E & M & U & _).
    exists rq. split; [exact E|]. split; [exact M | exact U].
Qed.

Lemma getAnalytics_query_witness :
  exists rq : Request,
    getAnalytics (fun params => "q") 1 (Some "proj") (ValidDate 0) (ValidDate 1000)
      (Some [("country", FText "NL"); ("city", FNull); ("device", FText EmptyString)])
      (initial ∅) =
    emit (Sent rq) (with_inflight [rq] (initial ∅)).
Proof.
  destruct (proj2 (proj2 (getAnalytics_query (fun params => "q") 1 (Some "proj")
              (ValidDate 0) (ValidDate 1000)
              (Some [("country", FText "NL"); ("city", FNull); ("device", FText EmptyString)])
              (initial ∅))) "proj" 0%Z 1000%Z eq_refl eq_refl eq_refl)
    as (rq & E & _).
  exists rq. exact E.
Defined.

Example getAnalytics_skips_null :
  analyticsParams (Some "proj") (ValidDate 0) (ValidDate 1000)
    (Some [("country", FText "NL"); ("city", FNull); ("topN", FNumber (Num 5));
           ("os", FUndefined); ("device", FText EmptyString)]) =
  inr [("projectId", PText "proj"); ("startDate", PDate 0); ("endDate", PDate 1000);
       ("country", PText "NL"); ("topN", PNumber (Num 5)); ("device", PText EmptyString)].
Proof. reflexivity. Qed.

(** X14: [getObservabilityEvents] checks nothing: called without a request
    it posts limit 50, offset 0 and sortDirection DESC with every other field
    undefined.  For any request, a limit or offset that is absent, 0 or NaN
    is replaced by 50 and 0, an absent or empty sortDirection by DESC, and a
    missing projectId is posted as it is; only an Invalid Date stops the
    post. *)
Theorem observability_defaults (stringify : ObservabilityPayload -> string)
    (id : nat) (req : option ObservabilityEventsRequest) (st : State) :
  observabilityPayload None =
    inr (mkObservabilityPayload None None None None None None (Num 50) (Num 0) "DESC") /\
  (req ≫= ob_startDate <> Some InvalidDate ->
   req ≫= ob_endDate <> Some InvalidDate ->
   exists (p : ObservabilityPayload) (rq : Request),
     observabilityPayload req = inr p /\
     getObservabilityEvents stringify id req st =
       emit (Sent rq) (with_inflight (inflight st ++ [rq]) st) /\
     url (config rq) = "/observability/events" /\
     body (config rq) = Json (stringify p) /\
     op_projectId p = req ≫= ob_projectId /\
     op_limit p = or_number (req ≫= ob_limit) (Num 50) /\
     (falsy_number (req ≫= ob_limit) \/ req ≫= ob_limit = Some NaN -> op_limit p = Num 50) /\
     (falsy_number (req ≫= ob_offset) \/ req ≫= ob_offset = Some NaN -> op_offset p = Num 0) /\
     (truthy (req ≫= ob_sortDirection) = None -> op_sortDirection p = "DESC")) /\
  (req ≫= ob_startDate = Some InvalidDate \/ req ≫= ob_endDate = Some InvalidDate ->
   fails_fast id st (getObservabilityEvents stringify id req st)).
Proof.
  split; [reflexivity|]. split.
  - intros Hs He. unfold getObservabilityEvents, observabilityPayload, isoOf.
    destruct (req ≫= ob_startDate) as [[|s]|]; [contradiction| |];
      (destruct (req ≫= ob_endDate) as [[|e]|]; [contradiction| |]);
      cbn [toISOString];
      match goal with
      | |- context [request ?c ?k st] =>
          destruct (sent_once c k st) as (rq & E & _ & U & B & _)
      end;
      eexists; exists rq; (split; [reflexivity|]); (split; [exact E|]);
      (split; [exact U|]); (split; [exact B|]); cbn;
      (split; [reflexivity|]); (split; [reflexivity|]);
      (split; [intros [H | ->]; [apply or_number_falsy, H | reflexivity]|]);
      (split; [intros [H | ->]; [apply or_number_falsy, H | reflexivity]|]);
      intros ->; reflexivity.
  - intros H. unfold fails_fast, getObservabilityEvents, observabilityPayload, isoOf.
    destruct H as [-> | ->]; cbn.
    + eexists; reflexivity.
    + destruct (req ≫= ob_startDate) as [[|s]|]; cbn; eexists; reflexivity.
Qed.

Lemma observability_defaults_witness :
  exists (p : ObservabilityPayload) (rq : Request),
    observabilityPayload None = inr p /\
    getObservabilityEvents (fun _ => "{}") 1 None (initial ∅) =
      emit (Sent rq) (with_inflight [rq] (initial ∅)).
Proof.
  destruct (proj1 (proj2 (observability_defaults (fun _ => "{}") 1 None (initial ∅))))
    as (p & rq & H1 & H2 & _); try discriminate.
  exists p, rq. split; [exact H1 | exact H2].
Defined.

(** X15: [getAnalyticsBreakdown] posts exactly when projectId and dimension
    are non-empty and both dates are present and valid.  Otherwise it sends
    nothing and rejects with the first failing check's message: "Missing
    projectId", then "Missing dimension", then "Missing startDate or
    endDate", then (for an Invalid Date) "Invalid time value". *)
Theorem breakdown_sends_or_reports (id : nat) (req : AnalyticsBreakdownRequest)
    (st : State) :
  let rejected (m : string) :=
    getAnalyticsBreakdown id req st = emit (Settled id (Rejected (Error m))) st in
  (truthy (projectId req) = None -> rejected "Missing projectId") /\
  (is_Some (truthy (projectId req)) -> truthy (dimension req) = None ->
   rejected "Missing dimension") /\
  (is_Some (truthy (projectId req)) -> is_Some (truthy (dimension req)) ->
   startDate req = None \/ endDate req = None ->
   rejected "Missing startDate or endDate") /\
  (passes_validation req ->
   startDate req = Some InvalidDate \/ endDate req = Some InvalidDate ->
   rejected "Invalid time value") /\
  ((exists rq, trace (getAnalyticsBreakdown id req st) = trace st ++ [Sent rq]) <->
   passes_validation req /\
   exists s e, startDate req = Some (ValidDate s) /\ endDate req = Some (ValidDate e)).
Proof.
  cbn zeta. unfold getAnalyticsBreakdown, breakdownPayload, passes_validation.
  split; [intros ->; reflexivity|].
  split; [intros [p ->] ->; reflexivity|].
  split.
  { intros [p ->] [d ->] [-> | ->]; [reflexivity|].
    destruct (startDate req); reflexivity. }
  split.
  { intros ([p ->] & [d ->] & [sd Hs] & [ed He]) [H | H]; rewrite H in *.
    - rewrite He. reflexivity.
    - rewrite Hs. cbn. destruct sd; reflexivity. }
  split.
  - intros [rq H].
    destruct (truthy (projectId req)) as [p|];
      [|cbn in H; apply app_inj_tail in H as [_ H]; discriminate].
    destruct (truthy (dimension req)) as [d|];
      [|cbn in H; apply app_inj_tail in H as [_ H]; discriminate].
    destruct (startDate req) as [sd|];
      [|cbn in H; apply app_inj_tail in H as [_ H]; discriminate].
    destruct (endDate req) as [ed|];
      [|cbn in H; apply app_inj_tail in H as [_ H]; discriminate].
    destruct sd as [|s];
      [cbn in H; apply app_inj_tail in H as [_ H]; discriminate|].
    destruct ed as [|e];
      [cbn in H; apply app_inj_tail in H as [_ H]; discriminate|].
    repeat split; eauto.
  - intros (([p ->] & [d ->] & _ & _) & s & e & -> & ->). cbn [toISOString].
    rewrite request_unfold. cbn. eexists. reflexivity.
Qed.

Lemma breakdown_sends_or_reports_witness :
  getAnalyticsBreakdown 1
    (mkBreakdownRequest (Some "proj") (Some "country") (Some InvalidDate)
       (Some (ValidDate 0)) None None None None) (initial ∅) =
  emit (Settled 1 (Rejected (Error "Invalid time value"))) (initial ∅).
Proof.
  refine (proj1 (proj2 (proj2 (proj2 (breakdown_sends_or_reports 1
    (mkBreakdownRequest (Some "proj") (Some "country") (Some InvalidDate)
       (Some (ValidDate 0)) None None None None) (initial ∅))))) _ (or_introl eq_refl)).
  repeat split; eexists; reflexivity.
Defined.

(** ** The flag and the refresh request *)

Lemma refresh_accounted_chain (p : Err + string) (st : State) :
  outstanding st + parkedRefreshes st = 0 ->
  refresh_accounted (refreshChain wake p st).
Proof.
  intros H. unfold refresh_accounted. destruct p as [err|token].
  - destruct (refreshChain_failed err st) as (_ & S & F & I & _). cbn zeta in *.
    unfold outstanding, parkedRefreshes in *. rewrite S, F, I. cbn. lia.
  - destruct (refreshChain_succeeded token st) as (_ & S & F & I & _). cbn zeta in *.
    unfold outstanding, parkedRefreshes in *. rewrite S, F, I.
    rewrite List.filter_app, length_app, retries_outstanding. cbn. lia.
Qed.

Lemma refresh_accounted_answer (rq : Request) (answer : option Response) (st : State) :
  outstanding st + parkedRefreshes st + (if refreshing (awaiter rq) then 1 else 0)
    = (if isRefreshing st then 1 else 0) ->
  refresh_accounted (responseInterceptor rq answer st).
Proof.
  intros H.
  destruct (is401 answer && negb (_retry (config rq))) eqn:E.
  - apply andb_prop in E as [E1 E2]. apply negb_true_iff in E2.
    destruct answer as [r|]; [|discriminate]. apply Nat.eqb_eq in E1.
    rewrite responseInterceptor_401 by assumption. cbn zeta.
    destruct (isRefreshing st) eqn:F.
    + unfold refresh_accounted, outstanding, parkedRefreshes in *. cbn. rewrite F.
      rewrite List.filter_app, length_app. cbn.
      destruct (refreshing (awaiter rq)); cbn; lia.
    + assert (refreshing (awaiter rq) = false) as Hk
        by (destruct (refreshing (awaiter rq)); [lia | reflexivity]).
      destruct (truthy _) as [rt|].
      * destruct (outstanding_request (refreshConfig rt) AutoRefresh
                    (with_isRefreshing true st)) as (O & P & Fl).
        unfold refresh_accounted, outstanding, parkedRefreshes in *. cbn in *.
        rewrite O, Fl, List.filter_app, length_app. cbn. rewrite Hk in *. cbn. lia.
      * apply refresh_accounted_chain.
        unfold outstanding, parkedRefreshes in *. cbn.
        rewrite List.filter_app, length_app. cbn. rewrite Hk in *. cbn. lia.
  - rewrite responseInterceptor_passthrough by exact E.
    destruct (refreshing (awaiter rq)) eqn:K.
    + destruct (awaiter rq); try discriminate. unfold settle, resume.
      destruct (refreshToken_resume_frame (outcome_of answer) st) as (S & _ & I & F).
      destruct (refreshToken_resume _ _) as [p st1]. cbn [fst snd] in *.
      apply refresh_accounted_chain. unfold outstanding, parkedRefreshes in *.
      rewrite S, I. destruct (isRefreshing st); lia.
    + destruct (settle_frame (awaiter rq) (outcome_of answer) st K) as (F & S & I & _).
      unfold refresh_accounted, outstanding, parkedRefreshes in *.
      rewrite F, S, I. lia.
Qed.

(** X16: in every run, [isRefreshing] is true exactly while one request of
    the automatic refresh exists, either in flight or parked in the
    subscriber list, and there is never more than one. *)
Theorem flag_tracks_refresh_request (evs : list Event) (storage : gmap string string) :
  let st := run evs (initial storage) in
  outstanding st + parkedRefreshes st = (if isRefreshing st then 1 else 0).
Proof.
  cbn zeta.
  assert (forall st, refresh_accounted st -> refresh_accounted (run evs st)) as H.
  { induction evs as [|ev evs IH]; intros st Hst; [exact Hst|].
    rewrite run_cons. apply IH.
    destruct ev as [id op | n answer]; cbn [step].
    - destruct (call_frame id op st) as (F & S & _).
      unfold refresh_accounted, parkedRefreshes in *.
      rewrite F, S, call_outstanding. exact Hst.
    - destruct (inflight st !! n) as [rq|] eqn:E; [|exact Hst].
      apply refresh_accounted_answer.
      pose proof (filter_delete_length (fun rq => refreshing (awaiter rq)) _ _ _ E) as Hn.
      cbn beta in Hn.
      unfold refresh_accounted, outstanding, parkedRefreshes in *. cbn. lia. }
  apply (H (initial storage)). reflexivity.
Qed.

(** X17: no API Surface call touches the refresh state when it is made: the
    flag, the subscriber list and the notifications are as before the call.
    The store is as before too, except that [manualRefreshToken] removes
    both tokens when it finds no refresh token. *)
Theorem calls_leave_session_alone (id : nat) (op : Operation) (st : State) :
  isRefreshing (call id op st) = isRefreshing st /\
  refreshSubscribers (call id op st) = refreshSubscribers st /\
  notifications (trace (call id op st)) = notifications (trace st) /\
  (op <> ManualRefreshToken \/ is_Some (truthy (getItem "refresh_token" st)) ->
   localStorage (call id op st) = localStorage st) /\
  (op = ManualRefreshToken -> truthy (getItem "refresh_token" st) = None ->
   tokens_cleared (call id op st)).
Proof.
  destruct (call_frame id op st) as (F & S & N).
  split; [exact F|]. split; [exact S|]. split; [exact N|]. split.
  - intros H.
    assert (forall c k, localStorage (request c k st) = localStorage st) as Hreq
      by (intros c k; rewrite request_unfold; reflexivity).
    destruct op as [m u b|pid i|pid|u|u|req| |]; cbn [call];
      unfold getLinksByProjectId, regenerateApiKey, getUserUsage, getUserTier,
        getAnalyticsBreakdown, manualRefreshToken, refreshToken_begin, logout;
      try apply Hreq.
    + destruct (truthy pid); [apply Hreq | reflexivity].
    + destruct (truthy pid); [apply Hreq | reflexivity].
    + destruct (breakdownPayload req); [reflexivity | apply Hreq].
    + destruct H as [H | [rt H]]; [contradiction|]. rewrite H. apply Hreq.
  - intros -> T. cbn [call]. unfold manualRefreshToken, refreshToken_begin.
    rewrite T. apply tokens_cleared_clearTokens.
Qed.

Lemma calls_leave_session_alone_witness :
  localStorage (call 1 ManualRefreshToken (initial stored_pair)) = stored_pair.
Proof.
  refine (proj1 (proj2 (proj2 (proj2
    (calls_leave_session_alone 1 ManualRefreshToken (initial stored_pair))))) _).
  right. eexists. reflexivity.
Defined.

Lemma refreshToken_resume_failure (answer : option Response) (st : State) :
  accepted answer = None ->
  is401 answer = false ->
  exists e : Err,
    refreshToken_resume (outcome_of answer) st = (inl e, st) /\
    unauthenticated e = false /\
    (is2xx answer = false -> e = AxiosError answer).
Proof.
  unfold accepted, outcome_of, refreshToken_resume, is401, is2xx.
  destruct answer as [r|]; [|intros _ _; eexists; repeat split].
  destruct (validateStatus (status r)) eqn:V.
  - intros A _.
    destruct (truthy (access_token (data r))), (truthy (refresh_token (data r)));
      try discriminate; eexists; repeat split; discriminate.
  - intros _ H. eexists. repeat split. exact H.
Qed.

(** X18: when the refresh fails (any answer but a 401 that delivers no token
    pair), the waiting call is rejected with the error of the refresh, not
    with its own 401: with the axios error of the refresh answer when that
    is a status outside 2xx or no answer at all, and with an error thrown by
    [refreshToken] when it is a 2xx response without two tokens.  The
    session is over: both tokens are gone and the flag is down.  The refresh
    is not retried; a later call that is denied starts a new attempt, which
    fails at once with "No refresh token available" and makes no exchange. *)
Theorem failed_refresh_ends_session (c : Config) (id id' : nat) (rt : string)
    (r1 r3 : Response) (answer : option Response) (st : State) :
  isRefreshing st = false ->
  refreshSubscribers st = [] ->
  inflight st = [mkRequest c (Caller id)] ->
  _retry c = false ->
  truthy (getItem "refresh_token" st) = Some rt ->
  status r1 = 401 ->
  is401 answer = false ->
  accepted answer = None ->
  status r3 = 401 ->
  let st2 := run [Answer 0 (Some r1); Answer 0 answer] st in
  let st4 := run [Call id' getProfile; Answer 0 (Some r3)] st2 in
  ((exists e : Err,
      settlements (trace st2) = settlements (trace st) ++ [(id, Rejected e)] /\
      unauthenticated e = false /\
      (is2xx answer = false -> e = AxiosError answer)) /\
   tokens_cleared st2 /\ isRefreshing st2 = false /\
   refreshSubscribers st2 = [] /\ inflight st2 = [] /\
   refreshExchanges st2 = refreshExchanges st + 1) /\
  (settlements (trace st4) = settlements (trace st2) ++ [(id', Rejected missing_token)] /\
   refreshExchanges st4 = refreshExchanges st2 /\
   tokens_cleared st4 /\ isRefreshing st4 = false /\ inflight st4 = []).
Proof.
  intros F S Hin Hc Hrt H1 H401 Hacc H3. cbn zeta.
  destruct (concurrent_denials [0] [(c, id)] [r1] rt st)
    as (arrived & P & T1 & F1 & I1 & S1 & L1);
    try assumption; try reflexivity; try discriminate.
  { repeat constructor. exact Hc. }
  { repeat constructor. exact H1. }
  apply Permutation_singleton_r in P. subst arrived. cbn zeta in *.
  set (exchange := mkRequest _ AutoRefresh) in *.
  change [Answer 0 (Some r1); Answer 0 answer]
    with (zip_with denyAt [0] [r1] ++ [Answer 0 answer]).
  rewrite run_app. set (st1 := run (zip_with denyAt [0] [r1]) st) in *.
  cbn [run foldl]. rewrite (step_answer_head _ _ _ _ I1).
  rewrite (refresh_answered exchange _ _ eq_refl H401).
  set (st1' := with_inflight [] st1).
  destruct (refreshToken_resume_failure answer st1' Hacc H401) as (e & He & Hu & Hx).
  rewrite He. cbn [fst snd].
  destruct (refreshChain_failed e st1') as (T2 & S2 & F2 & I2 & L2).
  cbn zeta in *.
  change (refreshSubscribers st1') with (refreshSubscribers st1) in T2.
  rewrite S1 in T2. cbn [map flat_map parked sub_awaiter woken app] in T2.
  set (st2 := refreshChain wake (inl e) st1') in *.
  assert (tokens_cleared st2) as C2.
  { unfold tokens_cleared, getItem. rewrite L2. apply tokens_cleared_clearTokens. }
  assert (refreshExchanges st2 = refreshExchanges st + 1) as E2.
  { erewrite (refreshExchanges_app st st2).
    2:{ rewrite T2. change (trace st1') with (trace st1). rewrite T1, <- app_assoc.
        reflexivity. }
    cbn [List.filter is_refresh_exchange app config exchange].
    rewrite requestInterceptor_url. reflexivity. }
  split.
  - split; [|repeat split; try assumption; apply C2].
    exists e. split; [|split; assumption].
    rewrite T2. change (trace st1') with (trace st1).
    rewrite T1, !settlements_app. cbn. rewrite app_nil_r. reflexivity.
  - change (step st2 (Call id' getProfile))
      with (request (mkConfig GET "/auth/profile" NoBody None false) (Caller id') st2).
    rewrite request_unfold. cbn zeta.
    set (rq := mkRequest _ (Caller id')).
    rewrite I2.
    erewrite step_answer_head by reflexivity.
    rewrite denied_without_token;
      [| exact F2 | exact S2 | | apply requestInterceptor_retry | exact H3].
    2:{ change (truthy (getItem "refresh_token" st2) = None).
        destruct C2 as [_ ->]. reflexivity. }
    cbn [awaiter rq]. unfold wake, resume. repeat split.
    + cbn. rewrite !settlements_app. cbn. rewrite !app_nil_r. reflexivity.
    + unfold refreshExchanges. cbn. rewrite !List.filter_app. cbn.
      rewrite requestInterceptor_url. cbn. rewrite !app_nil_r. reflexivity.
    + apply (getItem_clearTokens "access_token").
    + apply (getItem_clearTokens "refresh_token").
Qed.

Lemma failed_refresh_ends_session_witness :
  settlements
    (trace (run [Answer 0 (Some unauthorized); Answer 0 None]
              (run [Call 1 getProfile] (initial stored_pair)))) =
  [(1, Rejected (AxiosError None))].
Proof.
  destruct (proj1 (proj1 (failed_refresh_ends_session signed_profile 1 2 "rt1"
    unauthorized unauthorized None (run [Call 1 getProfile] (initial stored_pair))
    eq_refl eq_refl eq_refl eq_refl eq_refl eq_refl eq_refl eq_refl eq_refl)))
    as (e & Hs & _ & Hx).
  rewrite Hs, (Hx eq_refl). reflexivity.
Defined.

(** X19: [getLinksByProjectId] and [regenerateApiKey] reject with "Missing
    projectId" and send nothing when the projectId is missing or empty;
    otherwise each posts once, to /link/byProjectId with the id and the
    includeInteractions flag, and to /projects/generateApiKey with the id. *)
Theorem project_operations_check_id (id : nat) (pid : option string) (i : bool)
    (st : State) :
  (truthy pid = None ->
   getLinksByProjectId id pid i st =
     emit (Settled id (Rejected (Error "Missing projectId"))) st /\
   regenerateApiKey id pid st =
     emit (Settled id (Rejected (Error "Missing projectId"))) st) /\
  (forall p : string, truthy pid = Some p ->
   (exists rq : Request,
      getLinksByProjectId id pid i st =
        emit (Sent rq) (with_inflight (inflight st ++ [rq]) st) /\
      method (config rq) = POST /\ url (config rq) = "/link/byProjectId" /\
      body (config rq) = LinksByProjectIdBody p i /\ awaiter rq = Caller id) /\
   (exists rq : Request,
      regenerateApiKey id pid st =
        emit (Sent rq) (with_inflight (inflight st ++ [rq]) st) /\
      method (config rq) = POST /\ url (config rq) = "/projects/generateApiKey" /\
      body (config rq) = ProjectIdBody p /\ awaiter rq = Caller id)).
Proof.
  unfold getLinksByProjectId, regenerateApiKey. split.
  - intros ->. split; reflexivity.
  - intros p ->. split; apply sent_once.
Qed.

Lemma project_operations_check_id_witness :
  regenerateApiKey 1 None (initial stored_pair) =
  emit (Settled 1 (Rejected (Error "Missing projectId"))) (initial stored_pair).
Proof.
  exact (proj2 (proj1 (project_operations_check_id 1 None false (initial stored_pair))
                  eq_refl)).
Defined.
